(** * terraform-provider-aidbox: the RPC client and the resource adapter

    A shallow embedding of [internal/aidbox/client.go], of
    [internal/provider/license_resource.go] and of the provider's
    [Configure], followed by the properties of the specification that
    were checked against them.

    Conventions of the embedding.
    - A Go [string] and a Go [[]byte] are a [string] of the Standard
      Library (a sequence of 8-bit characters); a [nil] byte slice is the
      empty string.
    - A Go result pair [(T, error)] is a pair [T * option error]; [None]
      is the [nil] error.
    - The calls a function makes to its environment (the HTTP transport
      for the client, the [Client] interface for the adapter) are the
      events of a finite interaction program, [Prog]; every operation of
      this repository is straight-line code, so an inductive type is
      enough and every program can be run on a handler.
    - The libraries the code calls ([yaml.Marshal], [yaml.Unmarshal],
      [http.NewRequest], [os.Getenv]) are parameters.
    - [tflog] calls only write to the log and are left out. *)

From Stdlib Require Import String Ascii List ZArith Bool Lia.
Import ListNotations.
Local Open Scope string_scope.
Local Open Scope list_scope.

(* ------------------------------------------------------------------ *)
(** ** Go's [strings] and [errors] *)

Module strings.

(** [strings.HasPrefix s prefix]. *)
Fixpoint HasPrefix (s prefix : string) {struct prefix} : bool :=
  match prefix, s with
  | EmptyString, _ => true
  | String _ _, EmptyString => false
  | String p prefix', String c s' => Ascii.eqb c p && HasPrefix s' prefix'
  end.

(** [strings.Contains s substr]: [substr] occurs at some offset of [s]. *)
Fixpoint Contains (s substr : string) : bool :=
  HasPrefix s substr
  || match s with
     | EmptyString => false
     | String _ s' => Contains s' substr
     end.

End strings.

(** A Go [error] value as this code base builds them: [errors.New] and
    [fmt.Errorf] without [%w] give a plain message, [fmt.Errorf] with
    [%w] gives a message that also keeps the wrapped error. *)
Inductive error : Type :=
| errorString (s : string)
| wrapError (msg : string) (err : error).

(** The [Error()] method. *)
Definition Error (e : error) : string :=
  match e with
  | errorString s => s
  | wrapError msg _ => msg
  end.

(** [errors.Unwrap]. *)
Definition Unwrap (e : error) : option error :=
  match e with
  | errorString _ => None
  | wrapError _ err => Some err
  end.

(** [fmt.Errorf(prefix + "%w", err)]. *)
Definition Errorf_w (prefix : string) (err : error) : error :=
  wrapError (prefix ++ Error err) err.

(* ------------------------------------------------------------------ *)
(** ** Programs that call their environment *)

(** A program over the calls [E] (a call [e : E X] is answered by an
    [X]) that returns an [A]. *)
Inductive Prog (E : Type -> Type) (A : Type) : Type :=
| Ret (a : A)
| Vis (X : Type) (e : E X) (k : X -> Prog E A).

Arguments Ret {E A} a.
Arguments Vis {E A X} e k.

Fixpoint bind {E A B} (p : Prog E A) (f : A -> Prog E B) : Prog E B :=
  match p with
  | Ret a => f a
  | Vis e k => Vis e (fun x => bind (k x) f)
  end.

Definition call {E X} (e : E X) : Prog E X := Vis e (fun x => Ret x).

Declare Scope prog_scope.
Delimit Scope prog_scope with prog.
Notation "x <- c ;; k" := (bind c (fun x => k))
  (at level 61, c at next level, right associativity) : prog_scope.
Notation "' pat <- c ;; k" := (bind c (fun x => match x with pat => k end))
  (at level 61, pat pattern, c at next level, right associativity) : prog_scope.

(** One call that was made, with its arguments. *)
Definition event (E : Type -> Type) : Type := { X : Type & E X }.

(** The environment: it answers every call, and may change while doing
    so (a remote server, a test double with a counter). *)
Definition handler (E : Type -> Type) (W : Type) : Type :=
  forall X, E X -> W -> X * W.

(** Running a program: its result, the environment left behind and the
    calls made, in order. *)
Fixpoint exec {E A W} (h : handler E W) (p : Prog E A) (w : W)
  : A * W * list (event E) :=
  match p with
  | Ret a => (a, w, [])
  | Vis e k =>
      let '(x, w') := h _ e w in
      let '(a, w'', t) := exec h (k x) w' in
      (a, w'', existT _ _ e :: t)
  end.

Definition result {E A W} (h : handler E W) (p : Prog E A) (w : W) : A :=
  fst (fst (exec h p w)).

Definition calls {E A W} (h : handler E W) (p : Prog E A) (w : W)
  : list (event E) :=
  snd (exec h p w).

(** Replacing every call of [E] by a program over [F]: an implementation
    of the interface [E] on top of [F]. *)
Fixpoint interp {E F A} (impl : forall X, E X -> Prog F X) (p : Prog E A)
  : Prog F A :=
  match p with
  | Ret a => Ret a
  | Vis e k => bind (impl _ e) (fun x => interp impl (k x))
  end.

(* ------------------------------------------------------------------ *)
(** ** [net/http], as far as the client uses it *)

Module http.

(** [*http.Client]; the code only ever holds [http.DefaultClient]. *)
Inductive Client : Type := DefaultClient.

Record Request : Type := {
  Method : string;
  URL : string;
  Header : list (string * string);
  Body : string
}.

(** [req.Header.Set(key, value)]: the entry for [key] is replaced. *)
Definition Header_Set (key value : string) (req : Request) : Request :=
  {| Method := req.(Method);
     URL := req.(URL);
     Header :=
       (key, value)
       :: filter (fun kv => negb (String.eqb (fst kv) key)) req.(Header);
     Body := req.(Body) |}.

(** [req.Header.Get(key)]: the value stored for [key], the empty string
    when there is none. *)
Definition Header_Get (key : string) (req : Request) : string :=
  match find (fun kv => String.eqb (fst kv) key) req.(Header) with
  | Some kv => snd kv
  | None => ""
  end.

(** A response as the client sees it: the status line, the status code,
    and what [io.ReadAll(resp.Body)] gives when the body is read. *)
Record Response : Type := {
  Status : string;
  StatusCode : Z;
  ReadAll : string * option error
}.

Definition StatusOK : Z := 200.

(** [http.NewRequest(method, url, body)]; it fails on a URL it cannot
    parse. *)
Class RequestBuilder : Type :=
  NewRequest : string -> string -> string -> Request * option error.

(** The one call to the network: [client.Do(req)]. *)
Inductive httpE : Type -> Type :=
| Do (client : Client) (req : Request) : httpE (Response * option error).

End http.

(* ------------------------------------------------------------------ *)
(** ** Package [aidbox]: the RPC client ([internal/aidbox/client.go]) *)

Module aidbox.

Record HTTPClient : Type := {
  Endpoint : string;
  Token : string;
  Client : http.Client
}.

Record Creator : Type := {
  Creator_ID : string;
  Creator_ResourceType : string
}.

Record Project : Type := {
  Project_ID : string;
  Project_ResourceType : string
}.

Record Info : Type := { Hosting : string }.

Record Meta : Type := {
  LastUpdated : string;
  CreatedAt : string;
  VersionID : string
}.

Record Additional : Type := {
  ExpirationDays : Z;
  BoxURL : option string
}.

(** The field [Type] of the source is [Type_]: [Type] is reserved. *)
Record License : Type := {
  ID : string;
  Name : string;
  Product : string;
  Type_ : string;
  Expiration : string;
  Status : string;
  MaxInstances : Z;
  License_Creator : Creator;
  License_Project : Project;
  Offline : bool;
  Created : string;
  License_Meta : Meta;
  Issuer : string;
  License_Info : Info;
  License_Additional : Additional
}.

(** [LicenseResponse] includes the License and JWT token. *)
Record LicenseResponse : Type := {
  LicenseResponse_License : License;
  JWT : string
}.

(** The anonymous struct of [APIResponse.Result]. *)
Record APIResult : Type := {
  Result_License : License;
  Result_JWT : string
}.

(** [APIResponse] maps the YAML response from the Aidbox API. *)
Record APIResponse : Type := { Result : APIResult }.

(** The zero values [License{}] and [LicenseResponse{}]. *)
Definition License_zero : License :=
  {| ID := ""; Name := ""; Product := ""; Type_ := ""; Expiration := "";
     Status := ""; MaxInstances := 0;
     License_Creator := {| Creator_ID := ""; Creator_ResourceType := "" |};
     License_Project := {| Project_ID := ""; Project_ResourceType := "" |};
     Offline := false; Created := "";
     License_Meta := {| LastUpdated := ""; CreatedAt := ""; VersionID := "" |};
     Issuer := ""; License_Info := {| Hosting := "" |};
     License_Additional := {| ExpirationDays := 0; BoxURL := None |} |}.

Definition LicenseResponse_zero : LicenseResponse :=
  {| LicenseResponse_License := License_zero; JWT := "" |}.

(** The request envelope, a [map[string]interface{}] with the keys
    [method] and [params]; [params] maps names to strings. *)
Record requestBody : Type := {
  method : string;
  params : list (string * string)
}.

(** [yaml.Marshal], applied to a request envelope. *)
Class Marshaler : Type :=
  yaml_Marshal : requestBody -> string * option error.

(** [yaml.Unmarshal(bodyBytes, &apiResp)]: the struct it filled and the
    error it returned. *)
Class Unmarshaler : Type :=
  yaml_Unmarshal : string -> APIResponse * option error.

Definition NewClient (endpoint token : string) : HTTPClient :=
  {| Endpoint := endpoint; Token := token; Client := http.DefaultClient |}.

Section WithLibraries.

Context {marshaler : Marshaler} {builder : http.RequestBuilder}
        {unmarshaler : Unmarshaler}.

Local Open Scope prog_scope.

Definition makeAPICall (c : HTTPClient) (method : string)
    (params : list (string * string))
  : Prog http.httpE (string * option error) :=
  let requestBody := {| method := method; params := params |} in
  match yaml_Marshal requestBody with
  | (_, Some err) =>
      Ret ("", Some (Errorf_w "failed to create YAML request body: " err))
  | (yamlData, None) =>
  match http.NewRequest "POST" c.(Endpoint) yamlData with
  | (_, Some err) =>
      Ret ("", Some (Errorf_w "failed to create HTTP request: " err))
  | (req, None) =>
  let req := http.Header_Set "Content-Type" "text/yaml" req in
  let req := http.Header_Set "Accept" "text/yaml" req in
  '(resp, err) <- call (http.Do c.(Client) req) ;;
  match err with
  | Some err => Ret ("", Some (Errorf_w "API call failed: " err))
  | None =>
  match resp.(http.ReadAll) with
  | (_, Some err) =>
      Ret ("", Some (Errorf_w "failed to read response body: " err))
  | (bodyBytes, None) =>
  if negb (resp.(http.StatusCode) =? http.StatusOK)%Z then
    Ret ("", Some (errorString ("API response error: " ++ resp.(http.Status)
                                ++ "; Body: " ++ bodyBytes)))
  else
    Ret (bodyBytes, None)
  end end end end.

Definition parseYAMLResponse (bodyBytes : string)
  : LicenseResponse * option error :=
  match yaml_Unmarshal bodyBytes with
  | (_, Some err) =>
      (LicenseResponse_zero,
       Some (Errorf_w "failed to parse YAML response: " err))
  | (apiResp, None) =>
      ({| LicenseResponse_License := apiResp.(Result).(Result_License);
          JWT := apiResp.(Result).(Result_JWT) |}, None)
  end.

Definition CreateLicense (c : HTTPClient) (name product licenseType : string)
  : Prog http.httpE (LicenseResponse * option error) :=
  let params :=
    [("token", c.(Token)); ("name", name); ("product", product);
     ("type", licenseType)] in
  '(bodyBytes, err) <- makeAPICall c "portal.portal/issue-license" params ;;
  match err with
  | Some err => Ret (LicenseResponse_zero, Some err)
  | None =>
  match parseYAMLResponse bodyBytes with
  | (_, Some parseErr) => Ret (LicenseResponse_zero, Some parseErr)
  | (apiResp, None) => Ret (apiResp, None)
  end end.

Definition GetLicense (c : HTTPClient) (licenseID : string)
  : Prog http.httpE (LicenseResponse * option error) :=
  let params := [("token", c.(Token)); ("id", licenseID)] in
  '(bodyBytes, err) <- makeAPICall c "portal.portal/get-license" params ;;
  match err with
  | Some err =>
      if strings.Contains (Error err) "You are not a member of the project"
      then Ret (LicenseResponse_zero, None)
      else Ret (LicenseResponse_zero, Some err)
  | None =>
  match parseYAMLResponse bodyBytes with
  | (_, Some parseErr) => Ret (LicenseResponse_zero, Some parseErr)
  | (apiResp, None) => Ret (apiResp, None)
  end end.

Definition DeleteLicense (c : HTTPClient) (licenseID : string)
  : Prog http.httpE (option error) :=
  '(_, err) <- makeAPICall c "portal.portal/remove-license"
                 [("token", c.(Token)); ("id", licenseID)] ;;
  Ret err.

End WithLibraries.

End aidbox.

(* ------------------------------------------------------------------ *)
(** ** The plugin framework, as far as the adapter uses it *)

(** [types.String], [types.Int64] and [types.Bool]: a value of the host
    is null, unknown or known. *)
Module basetypes.

Inductive StringValue : Type :=
| NewStringNull
| NewStringUnknown
| NewStringValue (value : string).

Inductive Int64Value : Type :=
| NewInt64Null
| NewInt64Unknown
| NewInt64Value (value : Z).

Inductive BoolValue : Type :=
| NewBoolNull
| NewBoolUnknown
| NewBoolValue (value : bool).

Definition IsNull (s : StringValue) : bool :=
  match s with NewStringNull => true | _ => false end.

Definition IsUnknown (s : StringValue) : bool :=
  match s with NewStringUnknown => true | _ => false end.

(** [ValueString] is the empty string for a null or unknown value. *)
Definition ValueString (s : StringValue) : string :=
  match s with NewStringValue value => value | _ => "" end.

End basetypes.

(** [diag.Diagnostics]: the errors and warnings an operation reports. *)
Module diag.

Inductive Severity : Type := SeverityError | SeverityWarning.

Record Diagnostic : Type := {
  severity : Severity;
  Summary : string;
  Detail : string
}.

Definition Diagnostics : Type := list Diagnostic.

Definition NewErrorDiagnostic (summary detail : string) : Diagnostic :=
  {| severity := SeverityError; Summary := summary; Detail := detail |}.

Definition Equal (d1 d2 : Diagnostic) : bool :=
  match d1.(severity), d2.(severity) with
  | SeverityError, SeverityError | SeverityWarning, SeverityWarning =>
      String.eqb d1.(Summary) d2.(Summary)
      && String.eqb d1.(Detail) d2.(Detail)
  | _, _ => false
  end.

Definition Contains (diags : Diagnostics) (d : Diagnostic) : bool :=
  existsb (Equal d) diags.

(** [diags.Append(in...)] skips the diagnostics it already holds. *)
Definition Append (diags : Diagnostics) (new : Diagnostics) : Diagnostics :=
  fold_left (fun acc d => if Contains acc d then acc else acc ++ [d])
            new diags.

Definition AddError (diags : Diagnostics) (summary detail : string)
  : Diagnostics :=
  Append diags [NewErrorDiagnostic summary detail].

Definition HasError (diags : Diagnostics) : bool :=
  existsb (fun d => match d.(severity) with
                    | SeverityError => true
                    | SeverityWarning => false
                    end) diags.

End diag.

(** [tfsdk.State], [tfsdk.Plan] and [tfsdk.Config] over a model [M]: the
    raw value is null ([None]: no resource) or an object that the model
    struct decodes. *)
Module tfsdk.

Definition Data (M : Type) : Type := option M.

(** [Get(ctx, &target)]: a null value cannot be stored in a struct, the
    framework reports a conversion error and leaves [target] as it was.
    Only the severity of that diagnostic matters to the adapter. *)
Definition Get {M : Type} (data : Data M) (target : M)
  : M * diag.Diagnostics :=
  match data with
  | Some m => (m, [])
  | None =>
      (target,
       [diag.NewErrorDiagnostic "Value Conversion Error"
          "Received null value, however the target type cannot handle null values."])
  end.

(** [Set(ctx, &val)] with a struct that matches the schema. *)
Definition Set_ {M : Type} (val : M) : Data M * diag.Diagnostics :=
  (Some val, []).

(** [RemoveResource(ctx)]. *)
Definition RemoveResource {M : Type} : Data M := None.

End tfsdk.

(** [os.Getenv]: the value of a variable, empty when it is not set. *)
Class Environ : Type := os_Getenv : string -> string.

(* ------------------------------------------------------------------ *)
(** ** Package [provider]: configuration and the license resource *)

Module provider.

Import basetypes.

Module AidboxProviderModel.
Record t : Type := {
  Endpoint : StringValue;
  Token : StringValue
}.
(** [var data AidboxProviderModel]. *)
Definition zero : t := {| Endpoint := NewStringNull; Token := NewStringNull |}.
End AidboxProviderModel.

(** The interface [Client], as the calls a resource operation can make. *)
Inductive clientE : Type -> Type :=
| CreateLicense (name product licenseType : string)
  : clientE (aidbox.LicenseResponse * option error)
| GetLicense (licenseID : string)
  : clientE (aidbox.LicenseResponse * option error)
| DeleteLicense (licenseID : string) : clientE (option error).

(** [ProviderData]; [Configure] always stores the client [aidbox.NewClient]
    returns in [Client]. *)
Module ProviderData.
Record t : Type := {
  Endpoint : string;
  Token : string;
  Client : aidbox.HTTPClient
}.
End ProviderData.

Module ConfigureRequest.
Record t : Type := { Config : tfsdk.Data AidboxProviderModel.t }.
End ConfigureRequest.

Module ConfigureResponse.
Record t : Type := {
  DataSourceData : option http.Client;
  ResourceData : option ProviderData.t;
  Diagnostics : diag.Diagnostics
}.
End ConfigureResponse.

(** [(p *AidboxProvider) Configure]. *)
Definition Configure {environ : Environ}
    (req : ConfigureRequest.t) (resp : ConfigureResponse.t)
  : ConfigureResponse.t :=
  let '(data, diags) :=
    tfsdk.Get req.(ConfigureRequest.Config) AidboxProviderModel.zero in
  let resp :=
    {| ConfigureResponse.DataSourceData := resp.(ConfigureResponse.DataSourceData);
       ConfigureResponse.ResourceData := resp.(ConfigureResponse.ResourceData);
       ConfigureResponse.Diagnostics :=
         diag.Append resp.(ConfigureResponse.Diagnostics) diags |} in
  if diag.HasError resp.(ConfigureResponse.Diagnostics) then resp else
  (* Set default endpoint if not provided *)
  let data :=
    if IsNull data.(AidboxProviderModel.Endpoint)
       || IsUnknown data.(AidboxProviderModel.Endpoint)
       || String.eqb (ValueString data.(AidboxProviderModel.Endpoint)) ""
    then
      {| AidboxProviderModel.Endpoint := NewStringValue "https://aidbox.app/rpc";
         AidboxProviderModel.Token := data.(AidboxProviderModel.Token) |}
    else data in
  let configured (data : AidboxProviderModel.t) :=
    let endpoint := ValueString data.(AidboxProviderModel.Endpoint) in
    let token := ValueString data.(AidboxProviderModel.Token) in
    {| ConfigureResponse.DataSourceData := Some http.DefaultClient;
       ConfigureResponse.ResourceData :=
         Some {| ProviderData.Endpoint := endpoint;
                 ProviderData.Token := token;
                 ProviderData.Client := aidbox.NewClient endpoint token |};
       ConfigureResponse.Diagnostics := resp.(ConfigureResponse.Diagnostics) |} in
  (* Handle token; get from environment variable if not provided *)
  if IsNull data.(AidboxProviderModel.Token)
     || IsUnknown data.(AidboxProviderModel.Token)
     || String.eqb (ValueString data.(AidboxProviderModel.Token)) ""
  then
    let tokenEnv := os_Getenv "AIDBOX_API_TOKEN" in
    if negb (String.eqb tokenEnv "") then
      configured
        {| AidboxProviderModel.Endpoint := data.(AidboxProviderModel.Endpoint);
           AidboxProviderModel.Token := NewStringValue tokenEnv |}
    else
      {| ConfigureResponse.DataSourceData := resp.(ConfigureResponse.DataSourceData);
         ConfigureResponse.ResourceData := resp.(ConfigureResponse.ResourceData);
         ConfigureResponse.Diagnostics :=
           diag.AddError resp.(ConfigureResponse.Diagnostics)
             "No API Token Provided"
             "Please provide a 'token' in the provider configuration or through the 'AIDBOX_API_TOKEN' environment variable." |}
  else configured data.

(** [LicenseResourceModel] describes the resource data model. *)
Module LicenseResourceModel.
Record t : Type := {
  ID : StringValue;
  Name : StringValue;
  Product : StringValue;
  Type_ : StringValue;
  Expiration : StringValue;
  Status : StringValue;
  MaxInstances : Int64Value;
  CreatorID : StringValue;
  ProjectID : StringValue;
  Offline : BoolValue;
  Created : StringValue;
  MetaLastUpdated : StringValue;
  MetaCreatedAt : StringValue;
  MetaVersionID : StringValue;
  Issuer : StringValue;
  InfoHosting : StringValue;
  JWT : StringValue
}.
(** [var model LicenseResourceModel]. *)
Definition zero : t :=
  {| ID := NewStringNull; Name := NewStringNull; Product := NewStringNull;
     Type_ := NewStringNull; Expiration := NewStringNull;
     Status := NewStringNull; MaxInstances := NewInt64Null;
     CreatorID := NewStringNull; ProjectID := NewStringNull;
     Offline := NewBoolNull; Created := NewStringNull;
     MetaLastUpdated := NewStringNull; MetaCreatedAt := NewStringNull;
     MetaVersionID := NewStringNull; Issuer := NewStringNull;
     InfoHosting := NewStringNull; JWT := NewStringNull |}.

(** The assignments [model.F = v], one per field. *)

Definition set_ID (v : StringValue) (model : t) : t :=
  {| ID := v; Name := model.(Name); Product := model.(Product);
     Type_ := model.(Type_); Expiration := model.(Expiration);
     Status := model.(Status); MaxInstances := model.(MaxInstances);
     CreatorID := model.(CreatorID); ProjectID := model.(ProjectID);
     Offline := model.(Offline); Created := model.(Created);
     MetaLastUpdated := model.(MetaLastUpdated);
     MetaCreatedAt := model.(MetaCreatedAt);
     MetaVersionID := model.(MetaVersionID); Issuer := model.(Issuer);
     InfoHosting := model.(InfoHosting); JWT := model.(JWT) |}.

Definition set_Name (v : StringValue) (model : t) : t :=
  {| ID := model.(ID); Name := v; Product := model.(Product);
     Type_ := model.(Type_); Expiration := model.(Expiration);
     Status := model.(Status); MaxInstances := model.(MaxInstances);
     CreatorID := model.(CreatorID); ProjectID := model.(ProjectID);
     Offline := model.(Offline); Created := model.(Created);
     MetaLastUpdated := model.(MetaLastUpdated);
     MetaCreatedAt := model.(MetaCreatedAt);
     MetaVersionID := model.(MetaVersionID); Issuer := model.(Issuer);
     InfoHosting := model.(InfoHosting); JWT := model.(JWT) |}.

Definition set_Product (v : StringValue) (model : t) : t :=
  {| ID := model.(ID); Name := model.(Name); Product := v;
     Type_ := model.(Type_); Expiration := model.(Expiration);
     Status := model.(Status); MaxInstances := model.(MaxInstances);
     CreatorID := model.(CreatorID); ProjectID := model.(ProjectID);
     Offline := model.(Offline); Created := model.(Created);
     MetaLastUpdated := model.(MetaLastUpdated);
     MetaCreatedAt := model.(MetaCreatedAt);
     MetaVersionID := model.(MetaVersionID); Issuer := model.(Issuer);
     InfoHosting := model.(InfoHosting); JWT := model.(JWT) |}.

Definition set_Type_ (v : StringValue) (model : t) : t :=
  {| ID := model.(ID); Name := model.(Name); Product := model.(Product);
     Type_ := v; Expiration := model.(Expiration);
     Status := model.(Status); MaxInstances := model.(MaxInstances);
     CreatorID := model.(CreatorID); ProjectID := model.(ProjectID);
     Offline := model.(Offline); Created := model.(Created);
     MetaLastUpdated := model.(MetaLastUpdated);
     MetaCreatedAt := model.(MetaCreatedAt);
     MetaVersionID := model.(MetaVersionID); Issuer := model.(Issuer);
     InfoHosting := model.(InfoHosting); JWT := model.(JWT) |}.

Definition set_Expiration (v : StringValue) (model : t) : t :=
  {| ID := model.(ID); Name := model.(Name); Product := model.(Product);
     Type_ := model.(Type_); Expiration := v; Status := model.(Status);
     MaxInstances := model.(MaxInstances); CreatorID := model.(CreatorID);
     ProjectID := model.(ProjectID); Offline := model.(Offline);
     Created := model.(Created);
     MetaLastUpdated := model.(MetaLastUpdated);
     MetaCreatedAt := model.(MetaCreatedAt);
     MetaVersionID := model.(MetaVersionID); Issuer := model.(Issuer);
     InfoHosting := model.(InfoHosting); JWT := model.(JWT) |}.

Definition set_Status (v : StringValue) (model : t) : t :=
  {| ID := model.(ID); Name := model.(Name); Product := model.(Product);
     Type_ := model.(Type_); Expiration := model.(Expiration); Status := v;
     MaxInstances := model.(MaxInstances); CreatorID := model.(CreatorID);
     ProjectID := model.(ProjectID); Offline := model.(Offline);
     Created := model.(Created);
     MetaLastUpdated := model.(MetaLastUpdated);
     MetaCreatedAt := model.(MetaCreatedAt);
     MetaVersionID := model.(MetaVersionID); Issuer := model.(Issuer);
     InfoHosting := model.(InfoHosting); JWT := model.(JWT) |}.

Definition set_MaxInstances (v : Int64Value) (model : t) : t :=
  {| ID := model.(ID); Name := model.(Name); Product := model.(Product);
     Type_ := model.(Type_); Expiration := model.(Expiration);
     Status := model.(Status); MaxInstances := v;
     CreatorID := model.(CreatorID); ProjectID := model.(ProjectID);
     Offline := model.(Offline); Created := model.(Created);
     MetaLastUpdated := model.(MetaLastUpdated);
     MetaCreatedAt := model.(MetaCreatedAt);
     MetaVersionID := model.(MetaVersionID); Issuer := model.(Issuer);
     InfoHosting := model.(InfoHosting); JWT := model.(JWT) |}.

Definition set_CreatorID (v : StringValue) (model : t) : t :=
  {| ID := model.(ID); Name := model.(Name); Product := model.(Product);
     Type_ := model.(Type_); Expiration := model.(Expiration);
     Status := model.(Status); MaxInstances := model.(MaxInstances);
     CreatorID := v; ProjectID := model.(ProjectID);
     Offline := model.(Offline); Created := model.(Created);
     MetaLastUpdated := model.(MetaLastUpdated);
     MetaCreatedAt := model.(MetaCreatedAt);
     MetaVersionID := model.(MetaVersionID); Issuer := model.(Issuer);
     InfoHosting := model.(InfoHosting); JWT := model.(JWT) |}.

Definition set_ProjectID (v : StringValue) (model : t) : t :=
  {| ID := model.(ID); Name := model.(Name); Product := model.(Product);
     Type_ := model.(Type_); Expiration := model.(Expiration);
     Status := model.(Status); MaxInstances := model.(MaxInstances);
     CreatorID := model.(CreatorID); ProjectID := v;
     Offline := model.(Offline); Created := model.(Created);
     MetaLastUpdated := model.(MetaLastUpdated);
     MetaCreatedAt := model.(MetaCreatedAt);
     MetaVersionID := model.(MetaVersionID); Issuer := model.(Issuer);
     InfoHosting := model.(InfoHosting); JWT := model.(JWT) |}.

Definition set_Offline (v : BoolValue) (model : t) : t :=
  {| ID := model.(ID); Name := model.(Name); Product := model.(Product);
     Type_ := model.(Type_); Expiration := model.(Expiration);
     Status := model.(Status); MaxInstances := model.(MaxInstances);
     CreatorID := model.(CreatorID); ProjectID := model.(ProjectID);
     Offline := v; Created := model.(Created);
     MetaLastUpdated := model.(MetaLastUpdated);
     MetaCreatedAt := model.(MetaCreatedAt);
     MetaVersionID := model.(MetaVersionID); Issuer := model.(Issuer);
     InfoHosting := model.(InfoHosting); JWT := model.(JWT) |}.

Definition set_Created (v : StringValue) (model : t) : t :=
  {| ID := model.(ID); Name := model.(Name); Product := model.(Product);
     Type_ := model.(Type_); Expiration := model.(Expiration);
     Status := model.(Status); MaxInstances := model.(MaxInstances);
     CreatorID := model.(CreatorID); ProjectID := model.(ProjectID);
     Offline := model.(Offline); Created := v;
     MetaLastUpdated := model.(MetaLastUpdated);
     MetaCreatedAt := model.(MetaCreatedAt);
     MetaVersionID := model.(MetaVersionID); Issuer := model.(Issuer);
     InfoHosting := model.(InfoHosting); JWT := model.(JWT) |}.

Definition set_MetaLastUpdated (v : StringValue) (model : t) : t :=
  {| ID := model.(ID); Name := model.(Name); Product := model.(Product);
     Type_ := model.(Type_); Expiration := model.(Expiration);
     Status := model.(Status); MaxInstances := model.(MaxInstances);
     CreatorID := model.(CreatorID); ProjectID := model.(ProjectID);
     Offline := model.(Offline); Created := model.(Created);
     MetaLastUpdated := v; MetaCreatedAt := model.(MetaCreatedAt);
     MetaVersionID := model.(MetaVersionID); Issuer := model.(Issuer);
     InfoHosting := model.(InfoHosting); JWT := model.(JWT) |}.

Definition set_MetaCreatedAt (v : StringValue) (model : t) : t :=
  {| ID := model.(ID); Name := model.(Name); Product := model.(Product);
     Type_ := model.(Type_); Expiration := model.(Expiration);
     Status := model.(Status); MaxInstances := model.(MaxInstances);
     CreatorID := model.(CreatorID); ProjectID := model.(ProjectID);
     Offline := model.(Offline); Created := model.(Created);
     MetaLastUpdated := model.(MetaLastUpdated); MetaCreatedAt := v;
     MetaVersionID := model.(MetaVersionID); Issuer := model.(Issuer);
     InfoHosting := model.(InfoHosting); JWT := model.(JWT) |}.

Definition set_MetaVersionID (v : StringValue) (model : t) : t :=
  {| ID := model.(ID); Name := model.(Name); Product := model.(Product);
     Type_ := model.(Type_); Expiration := model.(Expiration);
     Status := model.(Status); MaxInstances := model.(MaxInstances);
     CreatorID := model.(CreatorID); ProjectID := model.(ProjectID);
     Offline := model.(Offline); Created := model.(Created);
     MetaLastUpdated := model.(MetaLastUpdated);
     MetaCreatedAt := model.(MetaCreatedAt); MetaVersionID := v;
     Issuer := model.(Issuer); InfoHosting := model.(InfoHosting);
     JWT := model.(JWT) |}.

Definition set_Issuer (v : StringValue) (model : t) : t :=
  {| ID := model.(ID); Name := model.(Name); Product := model.(Product);
     Type_ := model.(Type_); Expiration := model.(Expiration);
     Status := model.(Status); MaxInstances := model.(MaxInstances);
     CreatorID := model.(CreatorID); ProjectID := model.(ProjectID);
     Offline := model.(Offline); Created := model.(Created);
     MetaLastUpdated := model.(MetaLastUpdated);
     MetaCreatedAt := model.(MetaCreatedAt);
     MetaVersionID := model.(MetaVersionID); Issuer := v;
     InfoHosting := model.(InfoHosting); JWT := model.(JWT) |}.

Definition set_InfoHosting (v : StringValue) (model : t) : t :=
  {| ID := model.(ID); Name := model.(Name); Product := model.(Product);
     Type_ := model.(Type_); Expiration := model.(Expiration);
     Status := model.(Status); MaxInstances := model.(MaxInstances);
     CreatorID := model.(CreatorID); ProjectID := model.(ProjectID);
     Offline := model.(Offline); Created := model.(Created);
     MetaLastUpdated := model.(MetaLastUpdated);
     MetaCreatedAt := model.(MetaCreatedAt);
     MetaVersionID := model.(MetaVersionID); Issuer := model.(Issuer);
     InfoHosting := v; JWT := model.(JWT) |}.

Definition set_JWT (v : StringValue) (model : t) : t :=
  {| ID := model.(ID); Name := model.(Name); Product := model.(Product);
     Type_ := model.(Type_); Expiration := model.(Expiration);
     Status := model.(Status); MaxInstances := model.(MaxInstances);
     CreatorID := model.(CreatorID); ProjectID := model.(ProjectID);
     Offline := model.(Offline); Created := model.(Created);
     MetaLastUpdated := model.(MetaLastUpdated);
     MetaCreatedAt := model.(MetaCreatedAt);
     MetaVersionID := model.(MetaVersionID); Issuer := model.(Issuer);
     InfoHosting := model.(InfoHosting); JWT := v |}.

End LicenseResourceModel.

(** What the resource operations read of [resource.CreateRequest],
    [ReadRequest], [UpdateRequest] and [DeleteRequest]. *)
Module Request.
Record t : Type := {
  Plan : tfsdk.Data LicenseResourceModel.t;
  State : tfsdk.Data LicenseResourceModel.t
}.
End Request.

(** What they write of the matching response. *)
Module Response.
Record t : Type := {
  State : tfsdk.Data LicenseResourceModel.t;
  Diagnostics : diag.Diagnostics
}.

Definition Append (resp : t) (diags : diag.Diagnostics) : t :=
  {| State := resp.(State);
     Diagnostics := diag.Append resp.(Diagnostics) diags |}.

Definition AddError (resp : t) (summary detail : string) : t :=
  {| State := resp.(State);
     Diagnostics := diag.AddError resp.(Diagnostics) summary detail |}.

(** [resp.Diagnostics.Append(resp.State.Set(ctx, &model)...)]. *)
Definition Set_ (resp : t) (model : LicenseResourceModel.t) : t :=
  let '(state, diags) := tfsdk.Set_ model in
  {| State := state; Diagnostics := diag.Append resp.(Diagnostics) diags |}.

Definition RemoveResource (resp : t) : t :=
  {| State := tfsdk.RemoveResource; Diagnostics := resp.(Diagnostics) |}.
End Response.

(** [mapModelFromAPIResponse(model, apiResp)] assigns the fields of
    [*model] one after the other; the Go [int] of [MaxInstances] converts
    to [int64] without loss. *)
Definition mapModelFromAPIResponse (model : LicenseResourceModel.t)
    (apiResp : aidbox.LicenseResponse) : LicenseResourceModel.t :=
  let license := apiResp.(aidbox.LicenseResponse_License) in
  let model :=
    LicenseResourceModel.set_ID
      (NewStringValue license.(aidbox.ID)) model in
  let model :=
    LicenseResourceModel.set_Name
      (NewStringValue license.(aidbox.Name)) model in
  let model :=
    LicenseResourceModel.set_Product
      (NewStringValue license.(aidbox.Product)) model in
  let model :=
    LicenseResourceModel.set_Type_
      (NewStringValue license.(aidbox.Type_)) model in
  let model :=
    LicenseResourceModel.set_Expiration
      (NewStringValue license.(aidbox.Expiration)) model in
  let model :=
    LicenseResourceModel.set_Status
      (NewStringValue license.(aidbox.Status)) model in
  let model :=
    LicenseResourceModel.set_MaxInstances
      (NewInt64Value license.(aidbox.MaxInstances)) model in
  let model :=
    LicenseResourceModel.set_CreatorID
      (NewStringValue license.(aidbox.License_Creator).(aidbox.Creator_ID)) model in
  let model :=
    LicenseResourceModel.set_ProjectID
      (NewStringValue license.(aidbox.License_Project).(aidbox.Project_ID)) model in
  let model :=
    LicenseResourceModel.set_Offline
      (NewBoolValue license.(aidbox.Offline)) model in
  let model :=
    LicenseResourceModel.set_Created
      (NewStringValue license.(aidbox.Created)) model in
  let model :=
    LicenseResourceModel.set_MetaLastUpdated
      (NewStringValue license.(aidbox.License_Meta).(aidbox.LastUpdated)) model in
  let model :=
    LicenseResourceModel.set_MetaCreatedAt
      (NewStringValue license.(aidbox.License_Meta).(aidbox.CreatedAt)) model in
  let model :=
    LicenseResourceModel.set_MetaVersionID
      (NewStringValue license.(aidbox.License_Meta).(aidbox.VersionID)) model in
  let model :=
    LicenseResourceModel.set_Issuer
      (NewStringValue license.(aidbox.Issuer)) model in
  let model :=
    LicenseResourceModel.set_InfoHosting
      (NewStringValue license.(aidbox.License_Info).(aidbox.Hosting)) model in
  let model :=
    LicenseResourceModel.set_JWT
      (NewStringValue apiResp.(aidbox.JWT)) model in
  model.

Section Resource.

Local Open Scope prog_scope.

(** The methods of [*LicenseResource]. The receiver's [client] is the
    environment that answers the calls of [clientE]; [resp] is the
    response as the framework hands it over, the result is the response
    as the method leaves it. *)

Definition Create (req : Request.t) (resp : Response.t)
  : Prog clientE Response.t :=
  let '(model, diags) :=
    tfsdk.Get req.(Request.Plan) LicenseResourceModel.zero in
  let resp := Response.Append resp diags in
  if diag.HasError resp.(Response.Diagnostics) then Ret resp else
  '(apiResp, err) <-
    call (CreateLicense (ValueString model.(LicenseResourceModel.Name))
                        (ValueString model.(LicenseResourceModel.Product))
                        (ValueString model.(LicenseResourceModel.Type_))) ;;
  match err with
  | Some err => Ret (Response.AddError resp "API Call Failed" (Error err))
  | None =>
      let model := mapModelFromAPIResponse model apiResp in
      Ret (Response.Set_ resp model)
  end.

Definition Read (req : Request.t) (resp : Response.t)
  : Prog clientE Response.t :=
  (* Read Terraform state data into the model *)
  let '(model, diags) :=
    tfsdk.Get req.(Request.State) LicenseResourceModel.zero in
  let resp := Response.Append resp diags in
  if diag.HasError resp.(Response.Diagnostics) then Ret resp else
  (* Ensure the ID attribute is present *)
  if IsUnknown model.(LicenseResourceModel.ID)
     || IsNull model.(LicenseResourceModel.ID)
     || String.eqb (ValueString model.(LicenseResourceModel.ID)) ""
  then
    Ret (Response.AddError resp "No ID Present"
           "An ID must be present to read the License")
  else
  (* Use the client to fetch the license data from the API *)
  '(apiResp, err) <-
    call (GetLicense (ValueString model.(LicenseResourceModel.ID))) ;;
  match err with
  | Some err =>
      Ret (Response.AddError resp "Failed to Fetch License"
             ("Unable to fetch license: " ++ Error err))
  | None =>
      (* Map the API response back to the Terraform model *)
      let model := mapModelFromAPIResponse model apiResp in
      (* Save the updated model back into the Terraform state *)
      Ret (Response.Set_ resp model)
  end.

Definition Update (req : Request.t) (resp : Response.t)
  : Prog clientE Response.t :=
  (* Read Terraform plan data into the model *)
  let '(data, diags) :=
    tfsdk.Get req.(Request.Plan) LicenseResourceModel.zero in
  let resp := Response.Append resp diags in
  if diag.HasError resp.(Response.Diagnostics) then Ret resp else
  (* Save updated data into Terraform state *)
  Ret (Response.Set_ resp data).

Definition Delete (req : Request.t) (resp : Response.t)
  : Prog clientE Response.t :=
  (* Read Terraform prior state data into the model *)
  let '(model, diags) :=
    tfsdk.Get req.(Request.State) LicenseResourceModel.zero in
  let resp := Response.Append resp diags in
  if diag.HasError resp.(Response.Diagnostics) then Ret resp else
  (* Ensure the ID attribute is present *)
  if IsNull model.(LicenseResourceModel.ID)
     || IsUnknown model.(LicenseResourceModel.ID)
     || String.eqb (ValueString model.(LicenseResourceModel.ID)) ""
  then
    Ret (Response.AddError resp "No ID Found"
           "Cannot delete the License without an ID.")
  else
  err <- call (DeleteLicense (ValueString model.(LicenseResourceModel.ID))) ;;
  match err with
  | Some err =>
      Ret (Response.AddError resp "Failed to Delete License"
             ("Error while trying to delete the License with ID "
              ++ ValueString model.(LicenseResourceModel.ID) ++ ": "
              ++ Error err))
  | None =>
      (* Successfully deleted the License, indicate this by marking the
         resource as removed *)
      Ret (Response.RemoveResource resp)
  end.

End Resource.

(** [*aidbox.HTTPClient] satisfies [Client]: each call of the interface
    is the method of the same name. *)
Definition HTTPClient_Client
    {marshaler : aidbox.Marshaler} {builder : http.RequestBuilder}
    {unmarshaler : aidbox.Unmarshaler} (c : aidbox.HTTPClient)
  : forall X, clientE X -> Prog http.httpE X :=
  fun X e =>
    match e in clientE X return Prog http.httpE X with
    | CreateLicense name product licenseType =>
        aidbox.CreateLicense c name product licenseType
    | GetLicense licenseID => aidbox.GetLicense c licenseID
    | DeleteLicense licenseID => aidbox.DeleteLicense c licenseID
    end.

(** The attribute descriptions of [resource/schema] and
    [provider/schema], without their documentation strings. *)
Module schema.

Inductive AttributeType : Type :=
| StringAttribute
| Int64Attribute
| BoolAttribute.

(** [stringplanmodifier.RequiresReplace()] is the only plan modifier
    the provider uses. *)
Inductive PlanModifier : Type := RequiresReplace.

Record Attribute : Type := {
  Kind : AttributeType;
  Required : bool;
  Optional : bool;
  Computed : bool;
  Default : option string;
  PlanModifiers : list PlanModifier
}.

End schema.

(** The [tfsdk] tags of [AidboxProviderModel] and of
    [LicenseResourceModel], with the kind of each field. *)
Definition AidboxProviderModel_tfsdk : list (string * schema.AttributeType) :=
  [("endpoint", schema.StringAttribute); ("token", schema.StringAttribute)].

Definition LicenseResourceModel_tfsdk
  : list (string * schema.AttributeType) :=
  [("id", schema.StringAttribute);
   ("name", schema.StringAttribute);
   ("product", schema.StringAttribute);
   ("type", schema.StringAttribute);
   ("expiration", schema.StringAttribute);
   ("status", schema.StringAttribute);
   ("max_instances", schema.Int64Attribute);
   ("creator_id", schema.StringAttribute);
   ("project_id", schema.StringAttribute);
   ("offline", schema.BoolAttribute);
   ("created", schema.StringAttribute);
   ("meta_last_updated", schema.StringAttribute);
   ("meta_created_at", schema.StringAttribute);
   ("meta_version_id", schema.StringAttribute);
   ("issuer", schema.StringAttribute);
   ("info_hosting", schema.StringAttribute);
   ("jwt", schema.StringAttribute)].

Module AidboxProvider.

(** [(p *AidboxProvider) Schema]. *)
Definition Schema : list (string * schema.Attribute) :=
  [("endpoint",
    {| schema.Kind := schema.StringAttribute; schema.Required := false;
       schema.Optional := true; schema.Computed := false;
       schema.Default := None; schema.PlanModifiers := [] |});
   ("token",
    {| schema.Kind := schema.StringAttribute; schema.Required := false;
       schema.Optional := true; schema.Computed := false;
       schema.Default := None; schema.PlanModifiers := [] |})].

End AidboxProvider.

(** What the framework can hand over as [req.ProviderData], an
    [interface{}]: the [*ProviderData] the provider stored, or a value
    of another type, of which only the name of the type is used. *)
Inductive any : Type :=
| ProviderDataPtr (data : ProviderData.t)
| OtherValue (typeName : string).

Module LicenseResource.

(** [LicenseResource] defines the resource implementation; [client] is
    [None] for the nil interface. *)
Record t : Type := {
  client : option aidbox.HTTPClient;
  endpoint : string;
  token : string
}.

(** [(r *LicenseResource) Schema]. *)
Definition Schema : list (string * schema.Attribute) :=
  [("id",
    {| schema.Kind := schema.StringAttribute; schema.Required := false;
       schema.Optional := false; schema.Computed := true;
       schema.Default := None; schema.PlanModifiers := [] |});
   ("name",
    {| schema.Kind := schema.StringAttribute; schema.Required := true;
       schema.Optional := false; schema.Computed := false;
       schema.Default := None;
       schema.PlanModifiers := [schema.RequiresReplace] |});
   ("product",
    {| schema.Kind := schema.StringAttribute; schema.Required := false;
       schema.Optional := true; schema.Computed := true;
       schema.Default := Some "aidbox";
       schema.PlanModifiers := [schema.RequiresReplace] |});
   ("type",
    {| schema.Kind := schema.StringAttribute; schema.Required := true;
       schema.Optional := false; schema.Computed := false;
       schema.Default := None;
       schema.PlanModifiers := [schema.RequiresReplace] |});
   ("expiration",
    {| schema.Kind := schema.StringAttribute; schema.Required := false;
       schema.Optional := false; schema.Computed := true;
       schema.Default := None; schema.PlanModifiers := [] |});
   ("status",
    {| schema.Kind := schema.StringAttribute; schema.Required := false;
       schema.Optional := false; schema.Computed := true;
       schema.Default := None; schema.PlanModifiers := [] |});
   ("max_instances",
    {| schema.Kind := schema.Int64Attribute; schema.Required := false;
       schema.Optional := false; schema.Computed := true;
       schema.Default := None; schema.PlanModifiers := [] |});
   ("creator_id",
    {| schema.Kind := schema.StringAttribute; schema.Required := false;
       schema.Optional := false; schema.Computed := true;
       schema.Default := None; schema.PlanModifiers := [] |});
   ("project_id",
    {| schema.Kind := schema.StringAttribute; schema.Required := false;
       schema.Optional := false; schema.Computed := true;
       schema.Default := None; schema.PlanModifiers := [] |});
   ("offline",
    {| schema.Kind := schema.BoolAttribute; schema.Required := false;
       schema.Optional := false; schema.Computed := true;
       schema.Default := None; schema.PlanModifiers := [] |});
   ("created",
    {| schema.Kind := schema.StringAttribute; schema.Required := false;
       schema.Optional := false; schema.Computed := true;
       schema.Default := None; schema.PlanModifiers := [] |});
   ("meta_last_updated",
    {| schema.Kind := schema.StringAttribute; schema.Required := false;
       schema.Optional := false; schema.Computed := true;
       schema.Default := None; schema.PlanModifiers := [] |});
   ("meta_created_at",
    {| schema.Kind := schema.StringAttribute; schema.Required := false;
       schema.Optional := false; schema.Computed := true;
       schema.Default := None; schema.PlanModifiers := [] |});
   ("meta_version_id",
    {| schema.Kind := schema.StringAttribute; schema.Required := false;
       schema.Optional := false; schema.Computed := true;
       schema.Default := None; schema.PlanModifiers := [] |});
   ("issuer",
    {| schema.Kind := schema.StringAttribute; schema.Required := false;
       schema.Optional := false; schema.Computed := true;
       schema.Default := None; schema.PlanModifiers := [] |});
   ("info_hosting",
    {| schema.Kind := schema.StringAttribute; schema.Required := false;
       schema.Optional := false; schema.Computed := true;
       schema.Default := None; schema.PlanModifiers := [] |});
   ("jwt",
    {| schema.Kind := schema.StringAttribute; schema.Required := false;
       schema.Optional := false; schema.Computed := true;
       schema.Default := None; schema.PlanModifiers := [] |})].

(** [(r *LicenseResource) Configure]: the receiver and the diagnostics
    of the response, as the method leaves them. *)
Definition Configure (r : t) (ProviderData : option any)
    (Diagnostics : diag.Diagnostics) : t * diag.Diagnostics :=
  match ProviderData with
  | None =>
      (* Prevent panic if the provider has not been configured. *)
      (r, Diagnostics)
  | Some (OtherValue typeName) =>
      (r, diag.AddError Diagnostics "Unexpected Resource Configure Type"
            ("Expected *ProviderData, got: " ++ typeName
             ++ ". Please report this issue to the provider developers."))
  | Some (ProviderDataPtr data) =>
      ({| client := Some data.(ProviderData.Client);
          endpoint := data.(ProviderData.Endpoint);
          token := data.(ProviderData.Token) |}, Diagnostics)
  end.

End LicenseResource.

(** [NewLicenseResource]: [&LicenseResource{}]. *)
Definition NewLicenseResource : LicenseResource.t :=
  {| LicenseResource.client := None; LicenseResource.endpoint := "";
     LicenseResource.token := "" |}.

Module ImportStateRequest.
Record t : Type := { ID : string }.
End ImportStateRequest.

(** [resource.ImportStatePassthroughID(ctx, attrPath, req, resp)], a
    function of the framework: the attribute of [path.Root], the
    request and the response as given, the response as it leaves it. *)
Class ImportPassthrough : Type :=
  ImportStatePassthroughID :
    string -> ImportStateRequest.t -> Response.t -> Response.t.

(** [(r *LicenseResource) ImportState]. *)
Definition ImportState {framework : ImportPassthrough}
    (req : ImportStateRequest.t) (resp : Response.t) : Response.t :=
  ImportStatePassthroughID "id" req resp.

End provider.

(* ------------------------------------------------------------------ *)
(** ** Vocabulary of the specification *)

Module spec.

(** The phrase [GetLicense] looks for in an error text. *)
Definition notMember : string := "You are not a member of the project".

(** A status code of the 2xx class. *)
Definition is2xx (code : Z) : bool := ((200 <=? code) && (code <=? 299))%Z.

(** The error taxonomy of the client, read off the sites that build the
    errors: a request that could not be built, a failure of the network
    (no response, or a body that could not be read), a response whose
    status is refused, a body that does not decode. *)
Definition isRequestConstructionError (e : error) : bool :=
  match e with
  | wrapError msg _ =>
      strings.HasPrefix msg "failed to create YAML request body: "
      || strings.HasPrefix msg "failed to create HTTP request: "
  | errorString _ => false
  end.

Definition isTransportError (e : error) : bool :=
  match e with
  | wrapError msg _ =>
      strings.HasPrefix msg "API call failed: "
      || strings.HasPrefix msg "failed to read response body: "
  | errorString _ => false
  end.

Definition isProtocolError (e : error) : bool :=
  match e with
  | errorString msg => strings.HasPrefix msg "API response error: "
  | wrapError _ _ => false
  end.

Definition isDecodeError (e : error) : bool :=
  match e with
  | wrapError msg _ => strings.HasPrefix msg "failed to parse YAML response: "
  | errorString _ => false
  end.

(** What [makeAPICall] makes of the answer of [client.Do]; the lemma
    [makeAPICall_exec] below shows that the code does just this. *)
Definition afterDo (answer : http.Response * option error)
  : string * option error :=
  match answer with
  | (_, Some err) => ("", Some (Errorf_w "API call failed: " err))
  | (resp, None) =>
      match resp.(http.ReadAll) with
      | (_, Some err) =>
          ("", Some (Errorf_w "failed to read response body: " err))
      | (bodyBytes, None) =>
          if (resp.(http.StatusCode) =? 200)%Z then (bodyBytes, None)
          else ("", Some (errorString ("API response error: "
                                       ++ resp.(http.Status)
                                       ++ "; Body: " ++ bodyBytes)))
      end
  end.

(** The request [makeAPICall] hands to the transport, and the
    parameters [GetLicense] and [DeleteLicense] send. *)
Definition prepared (req : http.Request) : http.Request :=
  http.Header_Set "Accept" "text/yaml"
    (http.Header_Set "Content-Type" "text/yaml" req).

Definition idParams (c : aidbox.HTTPClient) (licenseID : string)
  : list (string * string) :=
  [("token", c.(aidbox.Token)); ("id", licenseID)].

(** The requests among the calls a program made. *)
Definition requests (t : list (event http.httpE)) : list http.Request :=
  map (fun ev : event http.httpE =>
         match projT2 ev with http.Do _ req => req end) t.

(** Running [p] on the network [h] from [w], exactly one request was
    sent, with the client's transport, and [resp] came back for it. *)
Definition received {A W} (c : aidbox.HTTPClient)
    (h : handler http.httpE W) (w : W) (p : Prog http.httpE A)
    (resp : http.Response) : Prop :=
  exists req w',
    requests (calls h p w) = [req]
    /\ h _ (http.Do c.(aidbox.Client) req) w = ((resp, None), w').

(** The state the specification expects after a successful create or
    read: every field is the known value the response gives for it. *)
Definition stateOf (apiResp : aidbox.LicenseResponse)
  : provider.LicenseResourceModel.t :=
  let license := apiResp.(aidbox.LicenseResponse_License) in
  {| provider.LicenseResourceModel.ID :=
       basetypes.NewStringValue license.(aidbox.ID);
     provider.LicenseResourceModel.Name :=
       basetypes.NewStringValue license.(aidbox.Name);
     provider.LicenseResourceModel.Product :=
       basetypes.NewStringValue license.(aidbox.Product);
     provider.LicenseResourceModel.Type_ :=
       basetypes.NewStringValue license.(aidbox.Type_);
     provider.LicenseResourceModel.Expiration :=
       basetypes.NewStringValue license.(aidbox.Expiration);
     provider.LicenseResourceModel.Status :=
       basetypes.NewStringValue license.(aidbox.Status);
     provider.LicenseResourceModel.MaxInstances :=
       basetypes.NewInt64Value license.(aidbox.MaxInstances);
     provider.LicenseResourceModel.CreatorID :=
       basetypes.NewStringValue
         license.(aidbox.License_Creator).(aidbox.Creator_ID);
     provider.LicenseResourceModel.ProjectID :=
       basetypes.NewStringValue
         license.(aidbox.License_Project).(aidbox.Project_ID);
     provider.LicenseResourceModel.Offline :=
       basetypes.NewBoolValue license.(aidbox.Offline);
     provider.LicenseResourceModel.Created :=
       basetypes.NewStringValue license.(aidbox.Created);
     provider.LicenseResourceModel.MetaLastUpdated :=
       basetypes.NewStringValue
         license.(aidbox.License_Meta).(aidbox.LastUpdated);
     provider.LicenseResourceModel.MetaCreatedAt :=
       basetypes.NewStringValue
         license.(aidbox.License_Meta).(aidbox.CreatedAt);
     provider.LicenseResourceModel.MetaVersionID :=
       basetypes.NewStringValue
         license.(aidbox.License_Meta).(aidbox.VersionID);
     provider.LicenseResourceModel.Issuer :=
       basetypes.NewStringValue license.(aidbox.Issuer);
     provider.LicenseResourceModel.InfoHosting :=
       basetypes.NewStringValue
         license.(aidbox.License_Info).(aidbox.Hosting);
     provider.LicenseResourceModel.JWT :=
       basetypes.NewStringValue apiResp.(aidbox.JWT) |}.

(** The request of a read of the state [state]; [Read] does not look
    at the plan. *)
Definition reading (state : tfsdk.Data provider.LicenseResourceModel.t)
  : provider.Request.t :=
  {| provider.Request.Plan := None; provider.Request.State := state |}.

(** What the framework does on an import with an identifier that is
    not empty: from the null state an import starts with, it writes the
    identifier at the attribute [id], leaves the other attributes null
    and reports nothing. (With an empty identifier the versions of the
    framework differ; nothing is assumed of that case.) *)
Definition passesThrough (framework : provider.ImportPassthrough) : Prop :=
  forall (id : string) (diags : diag.Diagnostics),
    id <> "" ->
    provider.ImportStatePassthroughID "id"
      {| provider.ImportStateRequest.ID := id |}
      {| provider.Response.State := None;
         provider.Response.Diagnostics := diags |}
    = {| provider.Response.State :=
           Some (provider.LicenseResourceModel.set_ID
                   (basetypes.NewStringValue id)
                   provider.LicenseResourceModel.zero);
         provider.Response.Diagnostics := diags |}.

(** A response with one more error, the state as it was. *)
Definition failed (resp : provider.Response.t) (summary detail : string)
  : provider.Response.t :=
  {| provider.Response.State := resp.(provider.Response.State);
     provider.Response.Diagnostics :=
       resp.(provider.Response.Diagnostics)
       ++ [diag.NewErrorDiagnostic summary detail] |}.

(** A value of the host that is null, unknown or the empty string: an
    identifier the adapter refuses, a setting that was not configured. *)
Definition absent (s : basetypes.StringValue) : bool :=
  match s with
  | basetypes.NewStringValue value => String.eqb value ""
  | _ => true
  end.

End spec.

(* ------------------------------------------------------------------ *)
(** ** Environments to run the code on *)

Module env.

(** An encoder that always succeeds. *)
Definition marshal : aidbox.Marshaler :=
  fun body => (("method: " ++ body.(aidbox.method))%string, None).

Definition dquote : string := String (ascii_of_nat 34) "".

(** [http.NewRequest]: a URL that starts with ["://"] has no scheme and
    is refused, with the error [url.Parse] gives; any other is taken. *)
Definition newRequest : http.RequestBuilder :=
  fun method url body =>
    if strings.HasPrefix url "://" then
      ({| http.Method := ""; http.URL := ""; http.Header := [];
          http.Body := "" |},
       Some (errorString ("parse " ++ dquote ++ url ++ dquote
                          ++ ": missing protocol scheme")))
    else
      ({| http.Method := method; http.URL := url; http.Header := [];
          http.Body := body |}, None).

Definition APIResponse_zero : aidbox.APIResponse :=
  {| aidbox.Result := {| aidbox.Result_License := aidbox.License_zero;
                         aidbox.Result_JWT := "" |} |}.

(** A decoder that accepts the body ["result: {}"] and no other. *)
Definition unmarshal : aidbox.Unmarshaler :=
  fun body =>
    if String.eqb body "result: {}" then (APIResponse_zero, None)
    else (APIResponse_zero,
          Some (errorString "yaml: unmarshal errors: cannot unmarshal"))%string.

(** A decoder that also does what [yaml.v3] does with an empty document:
    there is nothing to decode, the target is left as it was and no
    error is returned. *)
Definition unmarshalEmpty : aidbox.Unmarshaler :=
  fun body =>
    if String.eqb body "" then (APIResponse_zero, None) else unmarshal body.

(** A network that gives the same answer to every request. *)
Definition network (answer : http.Response * option error)
  : handler http.httpE unit :=
  fun X e =>
    match e in http.httpE X return unit -> X * unit with
    | http.Do _ _ => fun w => (answer, w)
    end.

Definition response (code : Z) (status body : string) : http.Response :=
  {| http.Status := status; http.StatusCode := code;
     http.ReadAll := (body, None) |}.

(** A response whose body cannot be read to its end. *)
Definition truncated (code : Z) (status : string) : http.Response :=
  {| http.Status := status; http.StatusCode := code;
     http.ReadAll := ("", Some (errorString "unexpected EOF")) |}.

Definition client : aidbox.HTTPClient :=
  aidbox.NewClient "https://aidbox.app/rpc" "secret".

(** A client whose endpoint is not a URL. *)
Definition misconfigured : aidbox.HTTPClient :=
  aidbox.NewClient "://aidbox.app/rpc" "secret".

(** A test double of the interface [Client]: fixed answers. *)
Definition double (license : aidbox.LicenseResponse * option error)
    (deleted : option error) : handler provider.clientE unit :=
  fun X e =>
    match e in provider.clientE X return unit -> X * unit with
    | provider.CreateLicense _ _ _ => fun w => (license, w)
    | provider.GetLicense _ => fun w => (license, w)
    | provider.DeleteLicense _ => fun w => (deleted, w)
    end.

Definition license1 : aidbox.License :=
  {| aidbox.ID := "lic-1"; aidbox.Name := "license-one";
     aidbox.Product := "aidbox"; aidbox.Type_ := "development";
     aidbox.Expiration := "2030-01-01"; aidbox.Status := "active";
     aidbox.MaxInstances := 2;
     aidbox.License_Creator :=
       {| aidbox.Creator_ID := "u1"; aidbox.Creator_ResourceType := "User" |};
     aidbox.License_Project :=
       {| aidbox.Project_ID := "p1";
          aidbox.Project_ResourceType := "Project" |};
     aidbox.Offline := false; aidbox.Created := "2024-01-01";
     aidbox.License_Meta :=
       {| aidbox.LastUpdated := "2024-01-02"; aidbox.CreatedAt := "2024-01-01";
          aidbox.VersionID := "7" |};
     aidbox.Issuer := "https://aidbox.app";
     aidbox.License_Info := {| aidbox.Hosting := "self-hosted" |};
     aidbox.License_Additional :=
       {| aidbox.ExpirationDays := 14; aidbox.BoxURL := None |} |}.

Definition stored (id name : string) : provider.LicenseResourceModel.t :=
  provider.LicenseResourceModel.set_Type_ (basetypes.NewStringValue "development")
    (provider.LicenseResourceModel.set_Product (basetypes.NewStringValue "aidbox")
      (provider.LicenseResourceModel.set_Name (basetypes.NewStringValue name)
        (provider.LicenseResourceModel.set_ID (basetypes.NewStringValue id)
           provider.LicenseResourceModel.zero))).

Definition fresh (state : tfsdk.Data provider.LicenseResourceModel.t)
  : provider.Response.t :=
  {| provider.Response.State := state; provider.Response.Diagnostics := [] |}.

Definition prior : provider.LicenseResourceModel.t :=
  stored "lic-1" "license-one".

(** The request of a refresh of [prior]. *)
Definition refresh : provider.Request.t :=
  {| provider.Request.Plan := None; provider.Request.State := Some prior |}.

(** A client that signals "not found": the empty result and no error. *)
Definition notFound : handler provider.clientE unit :=
  double (aidbox.LicenseResponse_zero, None) None.

(** An environment in which AIDBOX_API_TOKEN is set. *)
Definition tokenSet : Environ :=
  fun name => if String.eqb name "AIDBOX_API_TOKEN" then "from-env" else "".

(** A provider block with neither an endpoint nor a token. *)
Definition unconfigured : provider.ConfigureRequest.t :=
  {| provider.ConfigureRequest.Config :=
       Some {| provider.AidboxProviderModel.Endpoint :=
                 basetypes.NewStringNull;
               provider.AidboxProviderModel.Token :=
                 basetypes.NewStringValue "" |} |}.

(** The framework's passthrough of a recent version: an empty
    identifier is not written. *)
Definition passthrough : provider.ImportPassthrough :=
  fun attr req resp =>
    if String.eqb req.(provider.ImportStateRequest.ID) "" then resp
    else if String.eqb attr "id" then
      {| provider.Response.State :=
           Some (provider.LicenseResourceModel.set_ID
                   (basetypes.NewStringValue
                      req.(provider.ImportStateRequest.ID))
                   match resp.(provider.Response.State) with
                   | Some model => model
                   | None => provider.LicenseResourceModel.zero
                   end);
         provider.Response.Diagnostics :=
           resp.(provider.Response.Diagnostics) |}
    else resp.

Definition blank : provider.ConfigureResponse.t :=
  {| provider.ConfigureResponse.DataSourceData := None;
     provider.ConfigureResponse.ResourceData := None;
     provider.ConfigureResponse.Diagnostics := [] |}.

End env.

(* ------------------------------------------------------------------ *)
(** ** Substrings *)

Section Substrings.

Import strings.

Lemma HasPrefix_refl_app (p s : string) : HasPrefix (p ++ s) p = true.
Proof.
  induction p as [|a p IH]; simpl.
  - reflexivity.
  - now rewrite Ascii.eqb_refl, IH.
Qed.

Lemma HasPrefix_refl (s : string) : HasPrefix s s = true.
Proof. induction s as [|a s IH]; simpl; [|rewrite Ascii.eqb_refl]; auto. Qed.

Lemma HasPrefix_app_l (s t p : string) :
  HasPrefix s p = true -> HasPrefix (s ++ t) p = true.
Proof.
  revert s; induction p as [|a p IH]; intros s H.
  - reflexivity.
  - destruct s as [|c s]; simpl in *; [discriminate|].
    apply andb_true_iff in H as [Hc Hp].
    now rewrite Hc, (IH _ Hp).
Qed.

Lemma HasPrefix_iff (s p : string) :
  HasPrefix s p = true <-> exists t, s = (p ++ t)%string.
Proof.
  split.
  - revert s; induction p as [|a p IH]; intros s H.
    + now exists s.
    + destruct s as [|c s]; simpl in H; [discriminate|].
      apply andb_true_iff in H as [Hc Hp].
      apply Ascii.eqb_eq in Hc; subst c.
      destruct (IH _ Hp) as [t ->]. now exists t.
  - intros [t ->]. apply HasPrefix_refl_app.
Qed.

Lemma Contains_here (s p : string) :
  HasPrefix s p = true -> Contains s p = true.
Proof. intros H; destruct s; simpl in *; now rewrite H. Qed.

Lemma Contains_app_r (a s p : string) :
  Contains s p = true -> Contains (a ++ s) p = true.
Proof.
  intros H; induction a as [|c a IH]; simpl.
  - exact H.
  - rewrite IH. apply orb_true_r.
Qed.

Lemma Contains_app_l (s b p : string) :
  Contains s p = true -> Contains (s ++ b) p = true.
Proof.
  induction s as [|c s IH]; simpl; intros H.
  - rewrite orb_false_r in H.
    destruct p; [destruct b; reflexivity | destruct b; discriminate].
  - apply orb_true_iff in H as [H|H].
    + change (String c (s ++ b)) with (String c s ++ b)%string.
      now rewrite (HasPrefix_app_l _ b _ H).
    + rewrite (IH H). apply orb_true_r.
Qed.

(** [Contains] is the substring relation. *)
Lemma Contains_iff (s p : string) :
  Contains s p = true <-> exists a b, s = (a ++ p ++ b)%string.
Proof.
  split.
  - induction s as [|c s IH]; simpl; intros H.
    + rewrite orb_false_r in H. apply HasPrefix_iff in H as [t Ht].
      now exists ""%string, t.
    + apply orb_true_iff in H as [H|H].
      * apply HasPrefix_iff in H as [t Ht]. now exists ""%string, t.
      * destruct (IH H) as (a & b & ->). now exists (String c a), b.
  - intros (a & b & ->).
    apply Contains_app_r, Contains_here, HasPrefix_refl_app.
Qed.

Lemma Contains_middle (a p b : string) :
  Contains (a ++ p ++ b) p = true.
Proof. apply Contains_iff. now exists a, b. Qed.

(** The text of a wrapped error contains every phrase of its cause. *)
Lemma Errorf_w_keeps (prefix phrase : string) (cause : error) :
  Contains (Error cause) phrase = true ->
  Contains (Error (Errorf_w prefix cause)) phrase = true.
Proof. intros H. simpl. now apply Contains_app_r. Qed.

End Substrings.

(* ------------------------------------------------------------------ *)
(** ** Running programs *)

Section Running.

Context {E : Type -> Type} {W : Type} (h : handler E W).

Lemma exec_bind {A B} (p : Prog E A) (f : A -> Prog E B) (w : W) :
  exec h (bind p f) w =
  let '(a, w1, t1) := exec h p w in
  let '(b, w2, t2) := exec h (f a) w1 in
  (b, w2, t1 ++ t2).
Proof.
  revert w; induction p as [a|X e k IH]; intros w; simpl.
  - now destruct (exec h (f a) w) as [[b w2] t2].
  - destruct (h X e w) as [x w']. rewrite IH.
    destruct (exec h (k x) w') as [[a w1] t1].
    now destruct (exec h (f a) w1) as [[b w2] t2].
Qed.

(** A program that ends at once makes no call, whatever the handler. *)
Lemma calls_Ret {A} (a : A) (w : W) : calls h (Ret a) w = [].
Proof. reflexivity. Qed.

End Running.

(** The calls of an implementation that is never asked are none. *)
Lemma interp_Ret {E F A} (impl : forall X, E X -> Prog F X) (a : A) :
  interp impl (Ret a : Prog E A) = Ret a.
Proof. reflexivity. Qed.

(* ------------------------------------------------------------------ *)
(** ** The request path, [makeAPICall] *)

Section RequestPath.

Context {marshaler : aidbox.Marshaler} {builder : http.RequestBuilder}.
Context {W : Type} (h : handler http.httpE W).
Variables (c : aidbox.HTTPClient) (method : string)
          (params : list (string * string)) (w : W).

Lemma makeAPICall_exec :
  exec h (aidbox.makeAPICall c method params) w =
  match aidbox.yaml_Marshal
          {| aidbox.method := method; aidbox.params := params |} with
  | (_, Some err) =>
      (("", Some (Errorf_w "failed to create YAML request body: " err)),
       w, [])
  | (yamlData, None) =>
      match http.NewRequest "POST" c.(aidbox.Endpoint) yamlData with
      | (_, Some err) =>
          (("", Some (Errorf_w "failed to create HTTP request: " err)), w, [])
      | (req, None) =>
          let '(answer, w') :=
            h _ (http.Do c.(aidbox.Client) (spec.prepared req)) w in
          (spec.afterDo answer, w',
           [existT _ _ (http.Do c.(aidbox.Client) (spec.prepared req))])
      end
  end.
Proof.
  unfold aidbox.makeAPICall, spec.prepared.
  destruct (aidbox.yaml_Marshal _) as [yamlData [err|]]; [reflexivity|].
  destruct (http.NewRequest _ _ _) as [req [err|]]; [reflexivity|].
  cbn [bind call exec].
  destruct (h _ _ w) as [[resp [err|]] w']; [reflexivity|].
  unfold spec.afterDo.
  destruct (http.ReadAll resp) as [bodyBytes [err|]]; [reflexivity|].
  unfold http.StatusOK.
  now destruct (http.StatusCode resp =? 200)%Z.
Qed.

(** What the call returns once a response came back. *)
Lemma makeAPICall_received (resp : http.Response) :
  spec.received c h w (aidbox.makeAPICall c method params) resp ->
  result h (aidbox.makeAPICall c method params) w =
  spec.afterDo (resp, None).
Proof.
  unfold spec.received, result, calls. rewrite makeAPICall_exec.
  destruct (aidbox.yaml_Marshal _) as [yamlData [err|]];
    [now intros (req & w' & Hreq & _)|].
  destruct (http.NewRequest _ _ _) as [req0 [err|]];
    [now intros (req & w' & Hreq & _)|].
  destruct (h _ _ w) as [answer w0] eqn:Hdo.
  intros (req & w' & Hreq & Hans). cbn in Hreq.
  injection Hreq as <-. rewrite Hans in Hdo.
  now injection Hdo as <- _.
Qed.

(** Every error of the request path is of one of three kinds, and none
    is a decode error. *)
Lemma makeAPICall_error_kind (e : error) :
  snd (result h (aidbox.makeAPICall c method params) w) = Some e ->
  (spec.isRequestConstructionError e || spec.isTransportError e
   || spec.isProtocolError e) = true
  /\ spec.isDecodeError e = false.
Proof.
  unfold result. rewrite makeAPICall_exec.
  destruct (aidbox.yaml_Marshal _) as [yamlData [err|]].
  { cbn. intros [= <-]. now split. }
  destruct (http.NewRequest _ _ _) as [req0 [err|]].
  { cbn. intros [= <-]. now split. }
  destruct (h _ _ w) as [[resp [err|]] w0]; cbn [fst snd spec.afterDo].
  { intros [= <-]. now split. }
  destruct (http.ReadAll resp) as [bodyBytes [err|]].
  { cbn. intros [= <-]. now split. }
  destruct (http.StatusCode resp =? 200)%Z; [discriminate|].
  cbn. intros [= <-]. now split.
Qed.

End RequestPath.

(* ------------------------------------------------------------------ *)
(** ** The three operations of the client *)

Section Operations.

Context {marshaler : aidbox.Marshaler} {builder : http.RequestBuilder}.
Context {W : Type} (h : handler http.httpE W).
Variables (c : aidbox.HTTPClient) (w : W).

Lemma DeleteLicense_exec (licenseID : string) :
  result h (aidbox.DeleteLicense c licenseID) w =
    snd (result h (aidbox.makeAPICall c "portal.portal/remove-license"
                     (spec.idParams c licenseID)) w)
  /\ calls h (aidbox.DeleteLicense c licenseID) w =
     calls h (aidbox.makeAPICall c "portal.portal/remove-license"
                (spec.idParams c licenseID)) w.
Proof.
  unfold aidbox.DeleteLicense, result, calls, spec.idParams. rewrite exec_bind.
  destruct (exec h _ w) as [[[bodyBytes err] w1] t1]. cbn.
  now rewrite app_nil_r.
Qed.

Context {unmarshaler : aidbox.Unmarshaler}.

Lemma GetLicense_exec (licenseID : string) :
  result h (aidbox.GetLicense c licenseID) w =
    match result h (aidbox.makeAPICall c "portal.portal/get-license"
                      (spec.idParams c licenseID)) w with
    | (_, Some err) =>
        if strings.Contains (Error err) spec.notMember
        then (aidbox.LicenseResponse_zero, None)
        else (aidbox.LicenseResponse_zero, Some err)
    | (bodyBytes, None) => aidbox.parseYAMLResponse bodyBytes
    end
  /\ calls h (aidbox.GetLicense c licenseID) w =
     calls h (aidbox.makeAPICall c "portal.portal/get-license"
                (spec.idParams c licenseID)) w.
Proof.
  unfold aidbox.GetLicense, result, calls, spec.idParams, spec.notMember.
  rewrite exec_bind.
  destruct (exec h _ w) as [[[bodyBytes [err|]] w1] t1]; cbn [fst snd].
  - destruct (strings.Contains _ _); cbn; now rewrite app_nil_r.
  - unfold aidbox.parseYAMLResponse.
    destruct (aidbox.yaml_Unmarshal bodyBytes) as [apiResp [err|]];
      cbn; now rewrite app_nil_r.
Qed.

Lemma CreateLicense_exec (name product licenseType : string) :
  let params :=
    [("token", c.(aidbox.Token)); ("name", name); ("product", product);
     ("type", licenseType)] in
  result h (aidbox.CreateLicense c name product licenseType) w =
    match result h (aidbox.makeAPICall c "portal.portal/issue-license"
                      params) w with
    | (_, Some err) => (aidbox.LicenseResponse_zero, Some err)
    | (bodyBytes, None) => aidbox.parseYAMLResponse bodyBytes
    end
  /\ calls h (aidbox.CreateLicense c name product licenseType) w =
     calls h (aidbox.makeAPICall c "portal.portal/issue-license" params) w.
Proof.
  unfold aidbox.CreateLicense, result, calls.
  rewrite exec_bind.
  destruct (exec h _ w) as [[[bodyBytes [err|]] w1] t1]; cbn [fst snd].
  - cbn; now rewrite app_nil_r.
  - unfold aidbox.parseYAMLResponse.
    destruct (aidbox.yaml_Unmarshal bodyBytes) as [apiResp [err|]];
      cbn; now rewrite app_nil_r.
Qed.

(** A decoder's verdict on a body, and what the operations return for
    it: the parse error wraps the decoder's. *)
Lemma parseYAMLResponse_decode_error (bodyBytes : string) :
  (exists e, snd (aidbox.parseYAMLResponse bodyBytes) = Some e
             /\ spec.isDecodeError e = true)
  <-> (exists err, snd (aidbox.yaml_Unmarshal bodyBytes) = Some err).
Proof.
  unfold aidbox.parseYAMLResponse.
  destruct (aidbox.yaml_Unmarshal bodyBytes) as [apiResp [err|]]; cbn.
  - split; intros _; eauto.
  - split; intros [e H]; [destruct H as [H _]|]; discriminate.
Qed.

End Operations.

Lemma received_calls {A B W} (c : aidbox.HTTPClient)
    (h : handler http.httpE W) (w : W) (p : Prog http.httpE A)
    (q : Prog http.httpE B) (resp : http.Response) :
  calls h p w = calls h q w ->
  spec.received c h w p resp -> spec.received c h w q resp.
Proof. unfold spec.received. now intros ->. Qed.

(* ------------------------------------------------------------------ *)
(** ** Properties of the client *)

Section ClientProperties.

Context {marshaler : aidbox.Marshaler} {builder : http.RequestBuilder}.
Context {W : Type} (h : handler http.httpE W).
Variables (c : aidbox.HTTPClient) (w : W).

(** C2, as amended: for every response received on the request path
    whose body was read in full, the call returns a protocol error if and
    only if the status code is not 200; the text of that error is the
    status line and the body, verbatim, after fixed words, so it contains
    both; with status 200 the call returns the body and no error. *)
Theorem makeAPICall_protocol_error_iff_not_200
    (method : string) (params : list (string * string))
    (resp : http.Response) (bodyBytes : string) :
  spec.received c h w (aidbox.makeAPICall c method params) resp ->
  resp.(http.ReadAll) = (bodyBytes, None) ->
  let out := result h (aidbox.makeAPICall c method params) w in
  ((exists e, snd out = Some e /\ spec.isProtocolError e = true)
   <-> resp.(http.StatusCode) <> 200%Z)
  /\ (resp.(http.StatusCode) <> 200%Z ->
      exists e,
        out = ("", Some e)
        /\ Error e = ("API response error: " ++ resp.(http.Status)
                      ++ "; Body: " ++ bodyBytes)%string
        /\ strings.Contains (Error e) resp.(http.Status) = true
        /\ strings.Contains (Error e) bodyBytes = true)
  /\ (resp.(http.StatusCode) = 200%Z -> out = (bodyBytes, None)).
Proof.
  intros Hrecv Hbody out. subst out.
  rewrite (makeAPICall_received h c method params w resp Hrecv).
  unfold spec.afterDo. rewrite Hbody.
  destruct (Z.eqb_spec resp.(http.StatusCode) 200) as [Heq|Hne].
  - repeat split.
    + intros (e & [=] & _).
    + intros Hne; contradiction.
    + intros Hne; contradiction.
  - repeat split.
    + intros _; exact Hne.
    + intros _. eexists; split; [reflexivity|reflexivity].
    + intros _. eexists; repeat split.
      * apply (Contains_middle "API response error: ").
      * cbn [Error].
        apply (Contains_app_r "API response error: "),
              (Contains_app_r resp.(http.Status)),
              (Contains_app_r "; Body: ").
        apply Contains_here, HasPrefix_refl.
    + intros Heq; contradiction.
Qed.

(** C9, as amended: [DeleteLicense] never decodes the response body.
    For every response with status 200 whose body was read in full it
    returns nil whatever the body holds, and an error it returns is a
    request-construction, a transport or a protocol error, never a decode
    error. *)
Theorem DeleteLicense_never_decodes (licenseID : string) :
  (forall (resp : http.Response) (bodyBytes : string),
      spec.received c h w (aidbox.DeleteLicense c licenseID) resp ->
      resp.(http.StatusCode) = 200%Z ->
      resp.(http.ReadAll) = (bodyBytes, None) ->
      result h (aidbox.DeleteLicense c licenseID) w = None)
  /\ (forall e : error,
        result h (aidbox.DeleteLicense c licenseID) w = Some e ->
        (spec.isRequestConstructionError e || spec.isTransportError e
         || spec.isProtocolError e) = true
        /\ spec.isDecodeError e = false).
Proof.
  destruct (DeleteLicense_exec h c w licenseID) as [Hres Hcalls].
  split.
  - intros resp bodyBytes Hrecv Hcode Hbody.
    apply (received_calls c h w _ _ resp Hcalls) in Hrecv.
    rewrite Hres, (makeAPICall_received h c _ _ w resp Hrecv).
    unfold spec.afterDo. now rewrite Hbody, Hcode.
  - intros e He. rewrite Hres in He.
    exact (makeAPICall_error_kind h c _ _ w e He).
Qed.

Context {unmarshaler : aidbox.Unmarshaler}.


(** C8: the reinterpretation is decided by the text of the error and by
    nothing else. [GetLicense] sends what its request path sends, and
    whatever error [e] that path returns (a request that could not be
    built, a transport failure, a refused status with its body) the
    result is empty and the error is nil when the text of [e] contains
    "You are not a member of the project", and [e] itself when it does
    not: the outcome is a function of the text, the kind of [e] plays no
    part. In particular a failure of the transport or of the construction
    of the request is taken for "not found" as soon as the text of the
    library's error, which [e] wraps, contains the phrase. *)
Theorem GetLicense_not_found_by_text_alone (licenseID : string) (e : error) :
  snd (result h (aidbox.makeAPICall c "portal.portal/get-license"
                   [("token", c.(aidbox.Token)); ("id", licenseID)]) w)
  = Some e ->
  (spec.isRequestConstructionError e || spec.isTransportError e
   || spec.isProtocolError e) = true
  /\ result h (aidbox.GetLicense c licenseID) w
     = (aidbox.LicenseResponse_zero,
        if strings.Contains (Error e) spec.notMember then None else Some e)
  /\ calls h (aidbox.GetLicense c licenseID) w
     = calls h (aidbox.makeAPICall c "portal.portal/get-license"
                  [("token", c.(aidbox.Token)); ("id", licenseID)]) w
  /\ (forall cause : error,
         Unwrap e = Some cause ->
         strings.Contains (Error cause) spec.notMember = true ->
         result h (aidbox.GetLicense c licenseID) w
         = (aidbox.LicenseResponse_zero, None)).
Proof.
  intros He.
  destruct (GetLicense_exec h c w licenseID) as [Hres Hcalls].
  unfold spec.idParams in Hres, Hcalls.
  assert (Hout : result h (aidbox.GetLicense c licenseID) w
                 = (aidbox.LicenseResponse_zero,
                    if strings.Contains (Error e) spec.notMember
                    then None else Some e)).
  { rewrite Hres. destruct (result h _ w) as [bodyBytes err].
    cbn in He. subst err. now destruct (strings.Contains _ _). }
  split; [exact (proj1 (makeAPICall_error_kind h c _ _ w e He))|].
  split; [exact Hout|]. split; [exact Hcalls|].
  intros cause Hcause Htext. rewrite Hout.
  assert (Hwrapped : strings.Contains (Error e) spec.notMember = true);
    [|now rewrite Hwrapped].
  clear Hres Hcalls Hout. revert He. unfold result.
  rewrite makeAPICall_exec.
  assert (Hkeeps : forall words cause',
             Some (Errorf_w words cause') = Some e ->
             strings.Contains (Error e) spec.notMember = true).
  { intros words cause' [= <-]. cbn in Hcause.
    injection Hcause as ->. now apply Errorf_w_keeps. }
  destruct (aidbox.yaml_Marshal _) as [yamlData [err|]];
    [cbn [fst snd]; apply Hkeeps|].
  destruct (http.NewRequest _ _ _) as [req [err|]];
    [cbn [fst snd]; apply Hkeeps|].
  destruct (h _ _ w) as [[resp [err|]] w1]; cbn [fst snd spec.afterDo];
    [apply Hkeeps|].
  destruct (http.ReadAll resp) as [bodyBytes [err|]];
    [cbn [fst snd]; apply Hkeeps|].
  destruct (http.StatusCode resp =? 200)%Z; [discriminate|].
  cbn [snd]. intros [= <-]. discriminate.
Qed.

(** C4, as amended: for every response received whose body was read in
    full, [CreateLicense] and [GetLicense] fail with a parse error
    exactly when the status is 200 and [yaml.Unmarshal] returns an error
    for the body. With status 200 they return what the decoder makes of
    the body: the empty result and a parse error that wraps the
    decoder's error when it rejects the body, the license and the token
    it decoded, and no error, when it accepts it, whether or not the
    body held the envelope. With any other status, of the 2xx class or
    not, nothing is decoded and no decode error is returned. *)
Theorem decode_error_iff_200_and_Unmarshal_rejects
    (resp : http.Response) (bodyBytes : string) :
  resp.(http.ReadAll) = (bodyBytes, None) ->
  let decoded :=
    match aidbox.yaml_Unmarshal bodyBytes with
    | (_, Some err) =>
        (aidbox.LicenseResponse_zero,
         Some (Errorf_w "failed to parse YAML response: " err))
    | (apiResp, None) =>
        ({| aidbox.LicenseResponse_License :=
              apiResp.(aidbox.Result).(aidbox.Result_License);
            aidbox.JWT := apiResp.(aidbox.Result).(aidbox.Result_JWT) |},
         None)
    end in
  let decodeError (out : aidbox.LicenseResponse * option error) :=
    exists e, snd out = Some e /\ spec.isDecodeError e = true in
  let rejected := exists err, snd (aidbox.yaml_Unmarshal bodyBytes) = Some err in
  (forall name product licenseType : string,
      spec.received c h w
        (aidbox.CreateLicense c name product licenseType) resp ->
      (decodeError
         (result h (aidbox.CreateLicense c name product licenseType) w)
       <-> resp.(http.StatusCode) = 200%Z /\ rejected)
      /\ (resp.(http.StatusCode) = 200%Z ->
          result h (aidbox.CreateLicense c name product licenseType) w
          = decoded))
  /\ (forall licenseID : string,
        spec.received c h w (aidbox.GetLicense c licenseID) resp ->
        (decodeError (result h (aidbox.GetLicense c licenseID) w)
         <-> resp.(http.StatusCode) = 200%Z /\ rejected)
        /\ (resp.(http.StatusCode) = 200%Z ->
            result h (aidbox.GetLicense c licenseID) w = decoded)).
Proof.
  intros Hbody decoded decodeError rejected.
  assert (Hparse : aidbox.parseYAMLResponse bodyBytes = decoded) by reflexivity.
  assert (Hiff : decodeError decoded <-> rejected)
    by (rewrite <- Hparse; apply parseYAMLResponse_decode_error).
  assert (Hrefused : forall text,
             ~ decodeError (aidbox.LicenseResponse_zero,
                            Some (errorString text))).
  { intros text (e & [= <-] & He). discriminate. }
  assert (Hnone : ~ decodeError (aidbox.LicenseResponse_zero, None)).
  { intros (e & He & _). discriminate. }
  split.
  - intros name product licenseType Hrecv.
    destruct (CreateLicense_exec h c w name product licenseType)
      as [Hres Hcalls].
    apply (received_calls c h w _ _ resp Hcalls) in Hrecv.
    rewrite Hres, (makeAPICall_received h c _ _ w resp Hrecv).
    unfold spec.afterDo. rewrite Hbody.
    destruct (Z.eqb_spec resp.(http.StatusCode) 200) as [Hcode|Hcode].
    + rewrite Hparse. split; [|reflexivity].
      rewrite Hiff. tauto.
    + split; [|contradiction]. split; [|tauto].
      intros Hdecode. now apply Hrefused in Hdecode.
  - intros licenseID Hrecv.
    destruct (GetLicense_exec h c w licenseID) as [Hres Hcalls].
    apply (received_calls c h w _ _ resp Hcalls) in Hrecv.
    rewrite Hres, (makeAPICall_received h c _ _ w resp Hrecv).
    unfold spec.afterDo. rewrite Hbody.
    destruct (Z.eqb_spec resp.(http.StatusCode) 200) as [Hcode|Hcode].
    + rewrite Hparse. split; [|reflexivity].
      rewrite Hiff. tauto.
    + split; [|contradiction]. split; [|tauto].
      destruct (strings.Contains _ _); intros Hdecode;
        [now apply Hnone in Hdecode|now apply Hrefused in Hdecode].
Qed.

(** A refused status is taken for "not found" as soon as the body it
    came with contains the phrase, whatever the status is. *)
Lemma GetLicense_not_found_on_refused_status
    (licenseID : string) (resp : http.Response) (bodyBytes : string) :
  spec.received c h w (aidbox.GetLicense c licenseID) resp ->
  resp.(http.ReadAll) = (bodyBytes, None) ->
  resp.(http.StatusCode) <> 200%Z ->
  strings.Contains bodyBytes spec.notMember = true ->
  result h (aidbox.GetLicense c licenseID) w
  = (aidbox.LicenseResponse_zero, None).
Proof.
  intros Hrecv Hbody Hcode Htext.
  destruct (GetLicense_exec h c w licenseID) as [Hres Hcalls].
  apply (received_calls c h w _ _ resp Hcalls) in Hrecv.
  rewrite Hres, (makeAPICall_received h c _ _ w resp Hrecv).
  unfold spec.afterDo. rewrite Hbody.
  apply Z.eqb_neq in Hcode. rewrite Hcode. cbn [Error].
  now rewrite (Contains_app_r "API response error: " _ _
                 (Contains_app_r resp.(http.Status) _ _
                    (Contains_app_r "; Body: " _ _ Htext))).
Qed.

End ClientProperties.

(* ------------------------------------------------------------------ *)
(** ** The client on concrete responses *)

Section ClientExamples.

Existing Instance env.marshal.
Existing Instance env.newRequest.
Existing Instance env.unmarshal.

Ltac answered := unfold spec.received; do 2 eexists; split; reflexivity.

(** The claim C2 as the specification words it fails twice: a response
    with status 201 is of the 2xx class and yet gives a protocol error;
    a response with status 500 whose body cannot be read is not of the
    2xx class and gives a transport error, not a protocol error. *)
Lemma protocol_error_on_201_and_none_on_truncated_500 :
  let created := env.response 201 "201 Created" "id: lic-1" in
  let broken := env.truncated 500 "500 Internal Server Error" in
  let refused :=
    errorString "API response error: 201 Created; Body: id: lic-1" in
  let unread :=
    Errorf_w "failed to read response body: " (errorString "unexpected EOF") in
  let issue := aidbox.makeAPICall env.client "portal.portal/issue-license" [] in
  (spec.received env.client (env.network (created, None)) tt issue created
   /\ spec.is2xx created.(http.StatusCode) = true
   /\ result (env.network (created, None)) issue tt = ("", Some refused)
   /\ spec.isProtocolError refused = true)
  /\ (spec.received env.client (env.network (broken, None)) tt issue broken
      /\ spec.is2xx broken.(http.StatusCode) = false
      /\ result (env.network (broken, None)) issue tt = ("", Some unread)
      /\ spec.isProtocolError unread = false
      /\ spec.isTransportError unread = true).
Proof. cbv zeta. split; (split; [answered|repeat split; reflexivity]). Qed.

Lemma makeAPICall_protocol_error_iff_not_200_witness :
  let resp := env.response 404 "404 Not Found" "no such license" in
  let get :=
    aidbox.makeAPICall env.client "portal.portal/get-license"
      [("token", "secret"); ("id", "lic-1")] in
  exists e,
    result (env.network (resp, None)) get tt = ("", Some e)
    /\ Error e = "API response error: 404 Not Found; Body: no such license"
    /\ strings.Contains (Error e) "404 Not Found" = true
    /\ strings.Contains (Error e) "no such license" = true.
Proof.
  cbv zeta.
  refine (proj1 (proj2
            (makeAPICall_protocol_error_iff_not_200
               (env.network
                  (env.response 404 "404 Not Found" "no such license", None))
               env.client tt "portal.portal/get-license"
               [("token", "secret"); ("id", "lic-1")]
               (env.response 404 "404 Not Found" "no such license")
               "no such license" _ eq_refl)) _).
  - answered.
  - discriminate.
Defined.



(** A transport failure that is taken for "not found": the text of the
    failure holds the phrase. *)
Lemma GetLicense_not_found_by_text_alone_witness :
  let failed :=
    errorString "proxy error: You are not a member of the project" in
  let net := env.network (env.response 0 "" "", Some failed) in
  spec.isTransportError (Errorf_w "API call failed: " failed) = true
  /\ result net (aidbox.GetLicense env.client "lic-1") tt
     = (aidbox.LicenseResponse_zero, None).
Proof.
  cbv zeta. split; [reflexivity|].
  exact (proj1 (proj2
           (GetLicense_not_found_by_text_alone
              (env.network
                 (env.response 0 "" "",
                  Some (errorString
                          "proxy error: You are not a member of the project")))
              env.client tt "lic-1"
              (Errorf_w "API call failed: "
                 (errorString
                    "proxy error: You are not a member of the project"))
              eq_refl))).
Defined.

(** The same failure of the transport without the phrase in its text
    comes back to the caller as it is. *)
Example GetLicense_returns_other_transport_failures :
  let failed := errorString "dial tcp: connection refused" in
  result (env.network (env.response 0 "" "", Some failed))
    (aidbox.GetLicense env.client "lic-1") tt
  = (aidbox.LicenseResponse_zero,
     Some (Errorf_w "API call failed: " failed)).
Proof. reflexivity. Qed.

(** An endpoint that is no URL and holds the phrase: the request cannot
    be built, the error quotes the endpoint, and the license is taken
    for missing though nothing was sent. *)
Example GetLicense_not_found_on_construction_failure :
  let c := aidbox.NewClient "://You are not a member of the project" "secret" in
  let net := env.network (env.response 200 "200 OK" "result: {}", None) in
  result net (aidbox.GetLicense c "lic-1") tt
  = (aidbox.LicenseResponse_zero, None)
  /\ calls net (aidbox.GetLicense c "lic-1") tt = [].
Proof. split; reflexivity. Qed.

(** A refused status of any class. *)
Example GetLicense_not_found_on_protocol_error :
  let resp :=
    env.response 500 "500 Internal Server Error"
      "error: You are not a member of the project" in
  result (env.network (resp, None)) (aidbox.GetLicense env.client "lic-1") tt
  = (aidbox.LicenseResponse_zero, None).
Proof. reflexivity. Qed.

(** The claim C4 as the specification words it fails twice. A response
    with status 201 is of the 2xx class, the decoder rejects its body,
    and the operations fail with a protocol error, not with a decode
    error. And a response with status 200 and an empty body, which
    holds no envelope at all, is no decode failure: the decoder has
    nothing to decode and reports no error, so the operations return
    the empty result without an error. *)
Lemma no_decode_error_on_201_nor_on_an_empty_body :
  let created := env.response 201 "201 Created" "][" in
  let refused := errorString "API response error: 201 Created; Body: ][" in
  let empty := env.response 200 "200 OK" "" in
  (spec.is2xx created.(http.StatusCode) = true
   /\ snd (aidbox.yaml_Unmarshal "][")
      = Some (errorString "yaml: unmarshal errors: cannot unmarshal")
   /\ result (env.network (created, None))
        (aidbox.CreateLicense env.client "license-one" "aidbox"
           "development") tt
      = (aidbox.LicenseResponse_zero, Some refused)
   /\ result (env.network (created, None))
        (aidbox.GetLicense env.client "lic-1") tt
      = (aidbox.LicenseResponse_zero, Some refused)
   /\ spec.isDecodeError refused = false
   /\ spec.isProtocolError refused = true)
  /\ (spec.is2xx empty.(http.StatusCode) = true
      /\ empty.(http.ReadAll) = ("", None)
      /\ strings.Contains "" "result" = false
      /\ aidbox.yaml_Unmarshal (Unmarshaler := env.unmarshalEmpty) ""
         = (env.APIResponse_zero, None)
      /\ result (env.network (empty, None))
           (aidbox.CreateLicense (unmarshaler := env.unmarshalEmpty)
              env.client "license-one" "aidbox" "development") tt
         = (aidbox.LicenseResponse_zero, None)
      /\ result (env.network (empty, None))
           (aidbox.GetLicense (unmarshaler := env.unmarshalEmpty)
              env.client "lic-1") tt
         = (aidbox.LicenseResponse_zero, None)).
Proof. cbv zeta. repeat split; reflexivity. Qed.

Lemma decode_error_iff_200_and_Unmarshal_rejects_witness :
  let resp := env.response 200 "200 OK" "][" in
  let parseErr :=
    Errorf_w "failed to parse YAML response: "
      (errorString "yaml: unmarshal errors: cannot unmarshal") in
  result (env.network (resp, None))
    (aidbox.CreateLicense env.client "license-one" "aidbox" "development") tt
  = (aidbox.LicenseResponse_zero, Some parseErr)
  /\ result (env.network (resp, None))
       (aidbox.GetLicense env.client "lic-1") tt
     = (aidbox.LicenseResponse_zero, Some parseErr).
Proof.
  cbv zeta.
  destruct (decode_error_iff_200_and_Unmarshal_rejects
              (env.network (env.response 200 "200 OK" "][", None))
              env.client tt (env.response 200 "200 OK" "][") "]["
              eq_refl) as [Hcreate Hget].
  split.
  - refine (proj2 (Hcreate "license-one" "aidbox" "development" _) eq_refl).
    answered.
  - refine (proj2 (Hget "lic-1" _) eq_refl). answered.
Defined.

(** The claim C9 as the specification words it fails twice: with an
    endpoint that is no URL the delete fails before anything is sent,
    with an error that is neither a transport nor a protocol error; and
    a response with status 200 whose body cannot be read makes it fail. *)
Lemma DeleteLicense_fails_otherwise :
  let ok := env.response 200 "200 OK" "" in
  let broken := env.truncated 200 "200 OK" in
  let unbuilt :=
    Errorf_w "failed to create HTTP request: "
      (errorString ("parse " ++ env.dquote ++ "://aidbox.app/rpc"
                    ++ env.dquote ++ ": missing protocol scheme")) in
  let unread :=
    Errorf_w "failed to read response body: " (errorString "unexpected EOF") in
  (result (env.network (ok, None))
     (aidbox.DeleteLicense env.misconfigured "lic-1") tt = Some unbuilt
   /\ calls (env.network (ok, None))
        (aidbox.DeleteLicense env.misconfigured "lic-1") tt = []
   /\ spec.isTransportError unbuilt = false
   /\ spec.isProtocolError unbuilt = false)
  /\ (spec.received env.client (env.network (broken, None)) tt
        (aidbox.DeleteLicense env.client "lic-1") broken
      /\ broken.(http.StatusCode) = 200%Z
      /\ result (env.network (broken, None))
           (aidbox.DeleteLicense env.client "lic-1") tt = Some unread).
Proof.
  cbv zeta. split.
  - repeat split; reflexivity.
  - split; [answered|]. split; reflexivity.
Qed.

Lemma DeleteLicense_never_decodes_witness :
  let resp := env.response 200 "200 OK" "][" in
  result (env.network (resp, None))
    (aidbox.DeleteLicense env.client "lic-1") tt
  = None.
Proof.
  cbv zeta.
  refine (proj1 (DeleteLicense_never_decodes
                   (env.network (env.response 200 "200 OK" "][", None))
                   env.client tt "lic-1")
            (env.response 200 "200 OK" "][") "][" _ eq_refl eq_refl).
  answered.
Defined.

End ClientExamples.

(* ------------------------------------------------------------------ *)
(** ** Diagnostics *)

Section Diagnostics.

Import diag.

Lemma Append_nil (diags : Diagnostics) : Append diags [] = diags.
Proof. reflexivity. Qed.

Lemma Equal_severity (d1 d2 : Diagnostic) :
  Equal d1 d2 = true -> d1.(severity) = d2.(severity).
Proof.
  unfold Equal. now destruct d1.(severity), d2.(severity).
Qed.

(** After [AddError] the diagnostics hold an error. *)
Lemma HasError_AddError (diags : Diagnostics) (summary detail : string) :
  HasError (AddError diags summary detail) = true.
Proof.
  unfold AddError, Append. cbn [fold_left].
  destruct (Contains diags _) eqn:Hin.
  - unfold Contains in Hin. apply existsb_exists in Hin as (d & Hd & Heq).
    apply Equal_severity in Heq. cbn in Heq.
    unfold HasError. apply existsb_exists. exists d. split; [exact Hd|].
    now rewrite <- Heq.
  - unfold HasError. rewrite existsb_app. cbn. apply orb_true_r.
Qed.

(** With no error reported before it, the error is the last one. *)
Lemma AddError_fresh (diags : Diagnostics) (summary detail : string) :
  HasError diags = false ->
  AddError diags summary detail
  = diags ++ [NewErrorDiagnostic summary detail].
Proof.
  intros Hno. unfold AddError, Append. cbn [fold_left].
  destruct (Contains diags _) eqn:Hin; [|reflexivity].
  unfold Contains in Hin. apply existsb_exists in Hin as (d & Hd & Heq).
  apply Equal_severity in Heq. cbn in Heq.
  assert (HasError diags = true); [|congruence].
  unfold HasError. apply existsb_exists. exists d. split; [exact Hd|].
  now rewrite <- Heq.
Qed.

End Diagnostics.

Lemma absent_spec (s : basetypes.StringValue) :
  spec.absent s
  = (basetypes.IsNull s || basetypes.IsUnknown s
     || String.eqb (basetypes.ValueString s) "").
Proof. now destruct s. Qed.

Lemma absent_value (s : basetypes.StringValue) :
  spec.absent s = false -> String.eqb (basetypes.ValueString s) "" = false.
Proof. now destruct s. Qed.

(* ------------------------------------------------------------------ *)
(** ** Properties of the resource adapter *)

Section AdapterProperties.

Import provider.

Variables (req : Request.t) (resp : Response.t).

(** The framework hands over a response without an error in it. *)
Hypothesis clean : diag.HasError resp.(Response.Diagnostics) = false.

Lemma Append_clean :
  Response.Append resp [] = {| Response.State := resp.(Response.State);
                               Response.Diagnostics :=
                                 resp.(Response.Diagnostics) |}.
Proof. reflexivity. Qed.

(** C5: when the stored identifier is null, unknown or empty, [Read] and
    [Delete] end at once with an error ("No ID Present", "No ID Found")
    and leave the state as it was; they make no call to the client, so
    with the HTTP client behind the interface no request is sent. *)
Theorem Read_Delete_refuse_missing_id (model : LicenseResourceModel.t) :
  req.(Request.State) = Some model ->
  spec.absent model.(LicenseResourceModel.ID) = true ->
  let refusedRead :=
    Response.AddError resp "No ID Present"
      "An ID must be present to read the License" in
  let refusedDelete :=
    Response.AddError resp "No ID Found"
      "Cannot delete the License without an ID." in
  (Read req resp = Ret refusedRead /\ Delete req resp = Ret refusedDelete)
  /\ (diag.HasError refusedRead.(Response.Diagnostics) = true
      /\ diag.HasError refusedDelete.(Response.Diagnostics) = true)
  /\ (refusedRead.(Response.State) = resp.(Response.State)
      /\ refusedDelete.(Response.State) = resp.(Response.State))
  /\ (forall W (h : handler clientE W) (w : W),
         calls h (Read req resp) w = [] /\ calls h (Delete req resp) w = [])
  /\ (forall (marshaler : aidbox.Marshaler) (builder : http.RequestBuilder)
             (unmarshaler : aidbox.Unmarshaler) (c : aidbox.HTTPClient)
             W (net : handler http.httpE W) (w : W),
         calls net (interp (HTTPClient_Client c) (Read req resp)) w = []
         /\ calls net (interp (HTTPClient_Client c) (Delete req resp)) w = []).
Proof.
  intros Hstate Hid refusedRead refusedDelete.
  assert (HR : Read req resp = Ret refusedRead).
  { unfold Read. rewrite Hstate. cbn [tfsdk.Get].
    rewrite Append_clean. cbn [Response.Diagnostics]. rewrite clean.
    destruct model.(LicenseResourceModel.ID) as [| |value] eqn:E;
      cbn in Hid |- *; try rewrite Hid; reflexivity. }
  assert (HD : Delete req resp = Ret refusedDelete).
  { unfold Delete. rewrite Hstate. cbn [tfsdk.Get].
    rewrite Append_clean. cbn [Response.Diagnostics]. rewrite clean.
    destruct model.(LicenseResourceModel.ID) as [| |value] eqn:E;
      cbn in Hid |- *; try rewrite Hid; reflexivity. }
  rewrite HR, HD.
  repeat split; try apply HasError_AddError.
Qed.

(** C6: [Update] makes no call to the client, whatever it is given, and
    when the plan decodes the stored state is the planned data, all of
    it and nothing else; nothing is reported. *)
Theorem Update_is_pass_through :
  (exists out, Update req resp = Ret out)
  /\ (forall W (h : handler clientE W) (w : W),
         calls h (Update req resp) w = [])
  /\ (forall (marshaler : aidbox.Marshaler) (builder : http.RequestBuilder)
             (unmarshaler : aidbox.Unmarshaler) (c : aidbox.HTTPClient)
             W (net : handler http.httpE W) (w : W),
         calls net (interp (HTTPClient_Client c) (Update req resp)) w = [])
  /\ (forall data : LicenseResourceModel.t,
         req.(Request.Plan) = Some data ->
         Update req resp
         = Ret {| Response.State := Some data;
                  Response.Diagnostics := resp.(Response.Diagnostics) |}).
Proof.
  assert (H : exists out, Update req resp = Ret out).
  { unfold Update. destruct req.(Request.Plan) as [data|]; cbn [tfsdk.Get];
      match goal with
      | |- context [if ?b then _ else _] => destruct b
      end; eauto. }
  split; [exact H|]. destruct H as [out Hout].
  split; [intros; now rewrite Hout|].
  split; [intros; now rewrite Hout|].
  intros data Hplan. unfold Update. rewrite Hplan. cbn [tfsdk.Get].
  rewrite Append_clean. cbn [Response.Diagnostics]. now rewrite clean.
Qed.

End AdapterProperties.

Section StateFromResponse.

Import provider.

(** The seventeen assignments leave nothing of the model they start
    from. *)
Lemma mapModelFromAPIResponse_stateOf
    (model : LicenseResourceModel.t) (apiResp : aidbox.LicenseResponse) :
  mapModelFromAPIResponse model apiResp = spec.stateOf apiResp.
Proof. reflexivity. Qed.

Variables (req : Request.t) (resp : Response.t).
Hypothesis clean : diag.HasError resp.(Response.Diagnostics) = false.

Context {W : Type} (h : handler clientE W).
Variables (w w' : W) (model : LicenseResourceModel.t)
          (apiResp : aidbox.LicenseResponse).

Lemma Create_success :
  req.(Request.Plan) = Some model ->
  h _ (CreateLicense (basetypes.ValueString model.(LicenseResourceModel.Name))
         (basetypes.ValueString model.(LicenseResourceModel.Product))
         (basetypes.ValueString model.(LicenseResourceModel.Type_))) w
  = ((apiResp, None), w') ->
  result h (Create req resp) w
  = {| Response.State := Some (mapModelFromAPIResponse model apiResp);
       Response.Diagnostics := resp.(Response.Diagnostics) |}.
Proof.
  intros Hplan Hcall. unfold Create, result. rewrite Hplan.
  cbn [tfsdk.Get]. rewrite (Append_clean resp).
  cbn [Response.Diagnostics]. rewrite clean.
  cbn [bind call exec]. now rewrite Hcall.
Qed.

Lemma Read_success :
  req.(Request.State) = Some model ->
  spec.absent model.(LicenseResourceModel.ID) = false ->
  h _ (GetLicense (basetypes.ValueString model.(LicenseResourceModel.ID))) w
  = ((apiResp, None), w') ->
  result h (Read req resp) w
  = {| Response.State := Some (mapModelFromAPIResponse model apiResp);
       Response.Diagnostics := resp.(Response.Diagnostics) |}.
Proof.
  intros Hstate Hid Hcall. unfold Read, result. rewrite Hstate.
  cbn [tfsdk.Get]. rewrite (Append_clean resp).
  cbn [Response.Diagnostics]. rewrite clean.
  replace (basetypes.IsUnknown _ || basetypes.IsNull _ || _) with false
    by (destruct model.(LicenseResourceModel.ID); cbn in Hid |- *; congruence).
  cbn [bind call exec]. now rewrite Hcall.
Qed.

(** C10: the model [mapModelFromAPIResponse] returns is, field by field,
    the known value the response gives (the name, the product and the
    type included), whatever model it started from; and when the client
    answers [Create] or [Read] with a response and no error, the state
    stored is that model, so that no value of the plan or of the prior
    state is left in it. *)
Theorem state_is_rebuilt_from_the_response :
  (forall other : LicenseResourceModel.t,
      mapModelFromAPIResponse other apiResp = spec.stateOf apiResp)
  /\ (req.(Request.Plan) = Some model ->
      h _ (CreateLicense
             (basetypes.ValueString model.(LicenseResourceModel.Name))
             (basetypes.ValueString model.(LicenseResourceModel.Product))
             (basetypes.ValueString model.(LicenseResourceModel.Type_))) w
      = ((apiResp, None), w') ->
      (result h (Create req resp) w).(Response.State)
      = Some (spec.stateOf apiResp))
  /\ (req.(Request.State) = Some model ->
      spec.absent model.(LicenseResourceModel.ID) = false ->
      h _ (GetLicense
             (basetypes.ValueString model.(LicenseResourceModel.ID))) w
      = ((apiResp, None), w') ->
      (result h (Read req resp) w).(Response.State)
      = Some (spec.stateOf apiResp)).
Proof.
  split; [intros other; apply mapModelFromAPIResponse_stateOf|].
  split.
  - intros Hplan Hcall. now rewrite (Create_success Hplan Hcall).
  - intros Hstate Hid Hcall. now rewrite (Read_success Hstate Hid Hcall).
Qed.

(** In particular the empty result, which the client returns for "not
    found", is stored like any other. *)
Lemma Read_stores_the_empty_result :
  req.(Request.State) = Some model ->
  spec.absent model.(LicenseResourceModel.ID) = false ->
  h _ (GetLicense (basetypes.ValueString model.(LicenseResourceModel.ID))) w
  = ((aidbox.LicenseResponse_zero, None), w') ->
  result h (Read req resp) w
  = {| Response.State := Some (spec.stateOf aidbox.LicenseResponse_zero);
       Response.Diagnostics := resp.(Response.Diagnostics) |}.
Proof.
  intros Hstate Hid Hcall.
  unfold Read, result. rewrite Hstate.
  cbn [tfsdk.Get]. rewrite (Append_clean resp).
  cbn [Response.Diagnostics]. rewrite clean.
  replace (basetypes.IsUnknown _ || basetypes.IsNull _ || _) with false
    by (destruct model.(LicenseResourceModel.ID); cbn in Hid |- *; congruence).
  cbn [bind call exec]. now rewrite Hcall.
Qed.

End StateFromResponse.

(* ------------------------------------------------------------------ *)
(** ** Provider configuration *)

Section Configuration.

Import provider.

Context {environ : Environ}.
Variables (req : ConfigureRequest.t) (resp : ConfigureResponse.t)
          (data : AidboxProviderModel.t).

(** C7: with a configuration that decodes, the endpoint is the
    configured one, or "https://aidbox.app/rpc" when it is null, unknown
    or empty; the token is the configured one, or the value of
    AIDBOX_API_TOKEN when it is null, unknown or empty. When that leaves
    no token, [Configure] reports the error "No API Token Provided" and
    hands no provider data to the resources; otherwise it hands them the
    endpoint, the token and a client built from both, and reports
    nothing. *)
Theorem Configure_resolves_endpoint_and_token :
  req.(ConfigureRequest.Config) = Some data ->
  diag.HasError resp.(ConfigureResponse.Diagnostics) = false ->
  let endpoint :=
    if spec.absent data.(AidboxProviderModel.Endpoint)
    then "https://aidbox.app/rpc"
    else basetypes.ValueString data.(AidboxProviderModel.Endpoint) in
  let token :=
    if spec.absent data.(AidboxProviderModel.Token)
    then os_Getenv "AIDBOX_API_TOKEN"
    else basetypes.ValueString data.(AidboxProviderModel.Token) in
  let out := Configure req resp in
  (String.eqb token "" = true
   <-> spec.absent data.(AidboxProviderModel.Token) = true
       /\ os_Getenv "AIDBOX_API_TOKEN" = "")
  /\ if String.eqb token "" then
       out.(ConfigureResponse.ResourceData)
         = resp.(ConfigureResponse.ResourceData)
       /\ out.(ConfigureResponse.Diagnostics)
          = resp.(ConfigureResponse.Diagnostics)
            ++ [diag.NewErrorDiagnostic "No API Token Provided"
                  "Please provide a 'token' in the provider configuration or through the 'AIDBOX_API_TOKEN' environment variable."]
       /\ diag.HasError out.(ConfigureResponse.Diagnostics) = true
     else
       out.(ConfigureResponse.ResourceData)
         = Some {| ProviderData.Endpoint := endpoint;
                   ProviderData.Token := token;
                   ProviderData.Client := aidbox.NewClient endpoint token |}
       /\ out.(ConfigureResponse.Diagnostics)
          = resp.(ConfigureResponse.Diagnostics).
Proof.
  intros Hconfig Hclean endpoint token out.
  assert (Htoken : String.eqb token "" = true
                   <-> spec.absent data.(AidboxProviderModel.Token) = true
                       /\ os_Getenv "AIDBOX_API_TOKEN" = "").
  { subst token.
    destruct (spec.absent data.(AidboxProviderModel.Token)) eqn:Habs.
    - rewrite String.eqb_eq. tauto.
    - rewrite (absent_value _ Habs). split; [discriminate|intros []; discriminate]. }
  split; [exact Htoken|].
  subst out. unfold Configure. rewrite Hconfig. cbn [tfsdk.Get].
  rewrite Append_nil. cbn [ConfigureResponse.Diagnostics]. rewrite Hclean.
  rewrite <- !absent_spec.
  subst endpoint token.
  destruct (spec.absent data.(AidboxProviderModel.Endpoint)) eqn:Hend;
    cbn [AidboxProviderModel.Token AidboxProviderModel.Endpoint];
    rewrite <- ?absent_spec;
    destruct (spec.absent data.(AidboxProviderModel.Token)) eqn:Htok;
    try (destruct (String.eqb (os_Getenv "AIDBOX_API_TOKEN") "") eqn:Henv);
    cbn [negb ConfigureResponse.ResourceData ConfigureResponse.Diagnostics
         AidboxProviderModel.Token AidboxProviderModel.Endpoint
         basetypes.ValueString];
    rewrite ?(absent_value _ Htok);
    repeat split;
    try apply HasError_AddError; try (now apply AddError_fresh).
Qed.

End Configuration.

(* ------------------------------------------------------------------ *)
(** ** The adapter and the provider on concrete requests *)

Section AdapterExamples.

Import provider.

Existing Instance env.marshal.
Existing Instance env.newRequest.
Existing Instance env.unmarshal.

(** C1 does not hold of the code: when [GetLicense] signals "not found"
    during a read, [Read] reports nothing and does not remove the
    resource; it stores a resource whose fields are all the known empty
    value. It does so behind the HTTP client too, when the remote answers
    "You are not a member of the project"; and the next read of the
    state it stored is refused for want of an identifier. *)
Theorem Read_not_found_stores_an_empty_resource :
  let out := result env.notFound (Read env.refresh (env.fresh (Some env.prior))) tt in
  out.(Response.State) = Some (spec.stateOf aidbox.LicenseResponse_zero)
  /\ out.(Response.State) <> tfsdk.RemoveResource
  /\ out.(Response.Diagnostics) = []
  /\ result
       (env.network
          (env.response 403 "403 Forbidden"
             "You are not a member of the project", None))
       (interp (HTTPClient_Client env.client)
          (Read env.refresh (env.fresh (Some env.prior)))) tt
     = out
  /\ (result env.notFound
        (Read {| Request.Plan := None;
                 Request.State := out.(Response.State) |}
              (env.fresh out.(Response.State))) tt).(Response.Diagnostics)
     = [diag.NewErrorDiagnostic "No ID Present"
          "An ID must be present to read the License"].
Proof.
  cbv zeta. split; [reflexivity|]. split; [discriminate|].
  split; [reflexivity|]. split; reflexivity.
Qed.

Lemma Read_Delete_refuse_missing_id_witness :
  let model := env.stored "" "license-one" in
  let req := {| Request.Plan := None; Request.State := Some model |} in
  let resp := env.fresh (Some model) in
  Read req resp
  = Ret {| Response.State := Some model;
           Response.Diagnostics :=
             [diag.NewErrorDiagnostic "No ID Present"
                "An ID must be present to read the License"] |}
  /\ Delete req resp
     = Ret {| Response.State := Some model;
              Response.Diagnostics :=
                [diag.NewErrorDiagnostic "No ID Found"
                   "Cannot delete the License without an ID."] |}.
Proof.
  cbv zeta.
  exact (proj1 (Read_Delete_refuse_missing_id
                  {| Request.Plan := None;
                     Request.State := Some (env.stored "" "license-one") |}
                  (env.fresh (Some (env.stored "" "license-one")))
                  eq_refl (env.stored "" "license-one") eq_refl eq_refl)).
Defined.

Lemma Update_is_pass_through_witness :
  let planned := env.stored "lic-1" "license-two" in
  Update {| Request.Plan := Some planned; Request.State := Some env.prior |}
         (env.fresh (Some env.prior))
  = Ret {| Response.State := Some planned; Response.Diagnostics := [] |}.
Proof.
  cbv zeta.
  exact (proj2 (proj2 (proj2
           (Update_is_pass_through
              {| Request.Plan := Some (env.stored "lic-1" "license-two");
                 Request.State := Some env.prior |}
              (env.fresh (Some env.prior)) eq_refl)))
           (env.stored "lic-1" "license-two") eq_refl).
Defined.

Lemma state_is_rebuilt_from_the_response_witness :
  let issued :=
    {| aidbox.LicenseResponse_License := env.license1;
       aidbox.JWT := "eyJhbGciOi" |} in
  let planned := env.stored "" "ignored" in
  (result (env.double (issued, None) None)
     (Create {| Request.Plan := Some planned; Request.State := None |}
             (env.fresh None)) tt).(Response.State)
  = Some (spec.stateOf issued)
  /\ (result (env.double (issued, None) None)
        (Read env.refresh (env.fresh (Some env.prior))) tt).(Response.State)
     = Some (spec.stateOf issued).
Proof.
  cbv zeta. split.
  - exact (proj1 (proj2
             (state_is_rebuilt_from_the_response
                {| Request.Plan := Some (env.stored "" "ignored");
                   Request.State := None |}
                (env.fresh None) eq_refl
                (env.double
                   ({| aidbox.LicenseResponse_License := env.license1;
                       aidbox.JWT := "eyJhbGciOi" |}, None) None)
                tt tt (env.stored "" "ignored") _))
             eq_refl eq_refl).
  - exact (proj2 (proj2
             (state_is_rebuilt_from_the_response
                env.refresh (env.fresh (Some env.prior)) eq_refl
                (env.double
                   ({| aidbox.LicenseResponse_License := env.license1;
                       aidbox.JWT := "eyJhbGciOi" |}, None) None)
                tt tt env.prior _))
             eq_refl eq_refl eq_refl).
Defined.

Lemma Configure_resolves_endpoint_and_token_witness :
  (Configure (environ := env.tokenSet) env.unconfigured env.blank)
    .(ConfigureResponse.ResourceData)
  = Some {| ProviderData.Endpoint := "https://aidbox.app/rpc";
            ProviderData.Token := "from-env";
            ProviderData.Client :=
              aidbox.NewClient "https://aidbox.app/rpc" "from-env" |}.
Proof.
  exact (proj1 (proj2
           (Configure_resolves_endpoint_and_token (environ := env.tokenSet)
              env.unconfigured env.blank
              {| AidboxProviderModel.Endpoint := basetypes.NewStringNull;
                 AidboxProviderModel.Token := basetypes.NewStringValue "" |}
              eq_refl eq_refl))).
Defined.

Example Configure_without_any_token :
  let out := Configure (environ := fun _ => "") env.unconfigured env.blank in
  out.(ConfigureResponse.ResourceData) = None
  /\ diag.HasError out.(ConfigureResponse.Diagnostics) = true.
Proof. split; reflexivity. Qed.

End AdapterExamples.

(* ------------------------------------------------------------------ *)
(** ** More on the request path *)

Section RequestPathMore.

Context {marshaler : aidbox.Marshaler} {builder : http.RequestBuilder}.
Context {W : Type} (h : handler http.httpE W).
Variables (c : aidbox.HTTPClient) (w : W).

(** X1: when the envelope encodes and the request can be built,
    [makeAPICall] hands exactly one request to the client's transport:
    the one [http.NewRequest] built for POST, the endpoint and the
    encoded envelope, with its method, URL and body untouched and with
    the headers Content-Type and Accept both set to text/yaml. *)
Theorem makeAPICall_sends_the_built_request
    (method : string) (params : list (string * string))
    (yamlData : string) (req : http.Request) :
  aidbox.yaml_Marshal {| aidbox.method := method; aidbox.params := params |}
  = (yamlData, None) ->
  http.NewRequest "POST" c.(aidbox.Endpoint) yamlData = (req, None) ->
  exists sent : http.Request,
    calls h (aidbox.makeAPICall c method params) w
    = [existT _ _ (http.Do c.(aidbox.Client) sent)]
    /\ sent.(http.Method) = req.(http.Method)
    /\ sent.(http.URL) = req.(http.URL)
    /\ sent.(http.Body) = req.(http.Body)
    /\ http.Header_Get "Content-Type" sent = "text/yaml"
    /\ http.Header_Get "Accept" sent = "text/yaml".
Proof.
  intros Hmarshal Hbuild. exists (spec.prepared req).
  unfold calls. rewrite makeAPICall_exec, Hmarshal, Hbuild.
  destruct (h _ _ w) as [answer w1]. cbn [snd].
  repeat split.
Qed.

(** X2: [makeAPICall] never retries: whatever the transport answers, it
    calls [client.Do] at most once. The kind of the error it returns
    tells whether [client.Do] was called: not at all with a
    request-construction error, exactly once with a transport or a
    protocol error, and exactly once when it returns no error. *)
Theorem makeAPICall_sends_at_most_once
    (method : string) (params : list (string * string)) :
  let sent := calls h (aidbox.makeAPICall c method params) w in
  length sent <= 1
  /\ (forall e : error,
         snd (result h (aidbox.makeAPICall c method params) w) = Some e ->
         if spec.isRequestConstructionError e then sent = []
         else length sent = 1)
  /\ (snd (result h (aidbox.makeAPICall c method params) w) = None ->
      length sent = 1).
Proof.
  cbv zeta. unfold calls, result. rewrite makeAPICall_exec.
  destruct (aidbox.yaml_Marshal _) as [yamlData [err|]].
  { cbn. split; [lia|split]; [now intros e [= <-]|discriminate]. }
  destruct (http.NewRequest _ _ _) as [req [err|]].
  { cbn. split; [lia|split]; [now intros e [= <-]|discriminate]. }
  destruct (h _ _ w) as [[resp [err|]] w1]; cbn [fst snd length].
  { split; [lia|split]; [cbn; now intros e [= <-]|reflexivity]. }
  split; [lia|split]; [|reflexivity].
  unfold spec.afterDo.
  destruct (http.ReadAll resp) as [bodyBytes [err|]].
  { cbn. now intros e [= <-]. }
  destruct (http.StatusCode resp =? 200)%Z; [discriminate|].
  cbn. now intros e [= <-].
Qed.

(** X3: an error of the request path keeps its cause, and comes with
    no body. It is the error that [yaml.Marshal], [http.NewRequest],
    [client.Do] or [io.ReadAll] returned, wrapped with the words of that
    step ("failed to create YAML request body: ", "failed to create HTTP
    request: ", "API call failed: ", "failed to read response body: "):
    [errors.Unwrap] gives the library's error back and the text is the
    words followed by the library's text. Or it is the protocol error
    made of the status line and the body of a response whose status is
    not 200, a plain message with nothing to unwrap. *)
Theorem makeAPICall_error_keeps_its_cause
    (method : string) (params : list (string * string)) (e : error) :
  snd (result h (aidbox.makeAPICall c method params) w) = Some e ->
  let envelope := {| aidbox.method := method; aidbox.params := params |} in
  let wraps (words : string) (cause : error) :=
    e = wrapError (words ++ Error cause) cause
    /\ Unwrap e = Some cause
    /\ Error e = (words ++ Error cause)%string in
  fst (result h (aidbox.makeAPICall c method params) w) = ""
  /\ ((exists cause : error,
          snd (aidbox.yaml_Marshal envelope) = Some cause
          /\ wraps "failed to create YAML request body: " cause)
      \/ (exists (yamlData : string) (cause : error),
             aidbox.yaml_Marshal envelope = (yamlData, None)
             /\ snd (http.NewRequest "POST" c.(aidbox.Endpoint) yamlData)
                = Some cause
             /\ wraps "failed to create HTTP request: " cause)
      \/ (exists (yamlData : string) (req : http.Request)
                 (resp : http.Response) (answer : option error) (w' : W),
             aidbox.yaml_Marshal envelope = (yamlData, None)
             /\ http.NewRequest "POST" c.(aidbox.Endpoint) yamlData
                = (req, None)
             /\ h _ (http.Do c.(aidbox.Client) (spec.prepared req)) w
                = ((resp, answer), w')
             /\ match answer, resp.(http.ReadAll) with
                | Some cause, _ => wraps "API call failed: " cause
                | None, (_, Some cause) =>
                    wraps "failed to read response body: " cause
                | None, (bodyBytes, None) =>
                    resp.(http.StatusCode) <> 200%Z
                    /\ e = errorString
                             ("API response error: " ++ resp.(http.Status)
                              ++ "; Body: " ++ bodyBytes)
                    /\ Unwrap e = None
                end)).
Proof.
  intros He envelope wraps. subst envelope. revert He.
  unfold result. rewrite makeAPICall_exec.
  assert (Hwraps : forall words cause,
             Some (Errorf_w words cause) = Some e -> wraps words cause).
  { intros words cause [= <-]. now repeat split. }
  destruct (aidbox.yaml_Marshal _) as [yamlData [err|]] eqn:Hmarshal.
  { cbn [fst snd]. intros He. split; [reflexivity|]. left.
    exists err. split; [reflexivity|now apply Hwraps]. }
  destruct (http.NewRequest _ _ _) as [req [err|]] eqn:Hbuild.
  { cbn [fst snd]. intros He. split; [reflexivity|]. right; left.
    exists yamlData, err. rewrite Hbuild.
    split; [reflexivity|]. split; [reflexivity|now apply Hwraps]. }
  destruct (h _ _ w) as [[resp answer] w1] eqn:Hdo.
  cbn [fst snd]. unfold spec.afterDo.
  destruct answer as [err|].
  { cbn [fst snd]. intros He. split; [reflexivity|]. right; right.
    exists yamlData, req, resp, (Some err), w1.
    split; [reflexivity|]. split; [exact Hbuild|]. split; [exact Hdo|].
    now apply Hwraps. }
  destruct (http.ReadAll resp) as [bodyBytes [err|]] eqn:Hread.
  { cbn [fst snd]. intros He. split; [reflexivity|]. right; right.
    exists yamlData, req, resp, None, w1.
    split; [reflexivity|]. split; [exact Hbuild|]. split; [exact Hdo|].
    rewrite Hread. now apply Hwraps. }
  destruct (Z.eqb_spec (http.StatusCode resp) 200) as [Hcode|Hcode];
    [discriminate|].
  cbn [fst snd]. intros [= <-]. split; [reflexivity|]. right; right.
  exists yamlData, req, resp, None, w1.
  split; [reflexivity|]. split; [exact Hbuild|]. split; [exact Hdo|].
  rewrite Hread. now repeat split.
Qed.

End RequestPathMore.

(* ------------------------------------------------------------------ *)
(** ** More on the operations of the client *)

Section OperationsMore.

Context {marshaler : aidbox.Marshaler} {builder : http.RequestBuilder}
        {unmarshaler : aidbox.Unmarshaler}.
Context {W : Type} (h : handler http.httpE W).
Variables (c : aidbox.HTTPClient) (w : W).

(** X4: [CreateLicense] and [DeleteLicense] have no "not found" case:
    every error of the request path comes back to the caller as it is,
    also one whose text holds the phrase that [GetLicense] looks for. *)
Theorem CreateLicense_DeleteLicense_return_every_error
    (name product licenseType licenseID : string) (e : error) :
  (snd (result h
          (aidbox.makeAPICall c "portal.portal/issue-license"
             [("token", c.(aidbox.Token)); ("name", name);
              ("product", product); ("type", licenseType)]) w) = Some e ->
   result h (aidbox.CreateLicense c name product licenseType) w
   = (aidbox.LicenseResponse_zero, Some e))
  /\ (snd (result h
             (aidbox.makeAPICall c "portal.portal/remove-license"
                [("token", c.(aidbox.Token)); ("id", licenseID)]) w)
      = Some e ->
      result h (aidbox.DeleteLicense c licenseID) w = Some e).
Proof.
  split; intros He.
  - destruct (CreateLicense_exec h c w name product licenseType) as [-> _].
    destruct (result h _ w) as [bodyBytes err]. cbn in He. now subst err.
  - destruct (DeleteLicense_exec h c w licenseID) as [-> _].
    exact He.
Qed.

(** X5: [CreateLicense] and [GetLicense] never return data together
    with an error: whenever the error is not nil the result is the empty
    [LicenseResponse]. *)
Theorem error_comes_with_the_empty_result
    (name product licenseType licenseID : string) :
  (forall e : error,
      snd (result h (aidbox.CreateLicense c name product licenseType) w)
      = Some e ->
      fst (result h (aidbox.CreateLicense c name product licenseType) w)
      = aidbox.LicenseResponse_zero)
  /\ (forall e : error,
         snd (result h (aidbox.GetLicense c licenseID) w) = Some e ->
         fst (result h (aidbox.GetLicense c licenseID) w)
         = aidbox.LicenseResponse_zero).
Proof.
  assert (Hparse : forall bodyBytes e,
             snd (aidbox.parseYAMLResponse bodyBytes) = Some e ->
             fst (aidbox.parseYAMLResponse bodyBytes)
             = aidbox.LicenseResponse_zero).
  { intros bodyBytes e. unfold aidbox.parseYAMLResponse.
    now destruct (aidbox.yaml_Unmarshal bodyBytes) as [apiResp [err|]]. }
  split; intros e.
  - destruct (CreateLicense_exec h c w name product licenseType) as [-> _].
    destruct (result h _ w) as [bodyBytes [err|]]; [reflexivity|].
    apply Hparse.
  - destruct (GetLicense_exec h c w licenseID) as [-> _].
    destruct (result h _ w) as [bodyBytes [err|]]; [|apply Hparse].
    now destruct (strings.Contains _ _).
Qed.


End OperationsMore.

(* ------------------------------------------------------------------ *)
(** ** More on the resource adapter *)

Section DiagnosticsMore.

Import diag.

Let isError (d : Diagnostic) : bool :=
  match d.(severity) with SeverityError => true | SeverityWarning => false end.

Lemma Contains_error (diags : Diagnostics) (d : Diagnostic) :
  Contains diags d = true -> isError d = true -> HasError diags = true.
Proof.
  unfold Contains, HasError. intros Hin Herr.
  apply existsb_exists in Hin as (d' & Hd' & Heq).
  apply Equal_severity in Heq. apply existsb_exists. exists d'.
  split; [exact Hd'|]. unfold isError in Herr. now rewrite <- Heq.
Qed.

(** [Append] reports an error exactly when one of its two arguments
    holds one. *)
Lemma HasError_Append (diags new : Diagnostics) :
  HasError (Append diags new) = HasError diags || HasError new.
Proof.
  unfold Append. revert diags.
  induction new as [|d new IH]; intros diags; cbn [fold_left].
  - now rewrite orb_false_r.
  - rewrite IH. change (HasError (d :: new)) with (isError d || HasError new).
    rewrite orb_assoc. f_equal.
    destruct (Contains diags d) eqn:Hin.
    + destruct (isError d) eqn:Herr; [|now rewrite orb_false_r].
      now rewrite (Contains_error _ _ Hin Herr).
    + unfold HasError at 1. rewrite existsb_app. cbn.
      now rewrite orb_false_r.
Qed.

End DiagnosticsMore.

Section AdapterMore.

Import provider.

Variables (req : Request.t) (resp : Response.t).
Context {W : Type} (h : handler clientE W).
Variable (w : W).

(** X7: an operation whose input does not decode, or whose response
    already holds an error, stops before the client: [Create] and
    [Update] (reading the plan), [Read] and [Delete] (reading the state)
    return at once, make no call, leave the state as it was and the
    response holds an error. *)
Theorem operations_stop_on_an_earlier_error :
  (diag.HasError resp.(Response.Diagnostics) = true
   \/ req.(Request.Plan) = None ->
   exists out1 out2,
     Create req resp = Ret out1 /\ Update req resp = Ret out2
     /\ out1.(Response.State) = resp.(Response.State)
     /\ out2.(Response.State) = resp.(Response.State)
     /\ diag.HasError out1.(Response.Diagnostics) = true
     /\ diag.HasError out2.(Response.Diagnostics) = true)
  /\ (diag.HasError resp.(Response.Diagnostics) = true
      \/ req.(Request.State) = None ->
      exists out1 out2,
        Read req resp = Ret out1 /\ Delete req resp = Ret out2
        /\ out1.(Response.State) = resp.(Response.State)
        /\ out2.(Response.State) = resp.(Response.State)
        /\ diag.HasError out1.(Response.Diagnostics) = true
        /\ diag.HasError out2.(Response.Diagnostics) = true).
Proof.
  assert (Hstop : forall data : tfsdk.Data LicenseResourceModel.t,
             diag.HasError resp.(Response.Diagnostics) = true \/ data = None ->
             diag.HasError
               (Response.Append resp
                  (snd (tfsdk.Get data LicenseResourceModel.zero)))
                 .(Response.Diagnostics) = true).
  { intros data Hwhy. cbn [Response.Append Response.Diagnostics].
    rewrite HasError_Append. destruct Hwhy as [-> | ->]; [reflexivity|].
    apply orb_true_r. }
  split; intros Hwhy.
  - pose proof (Hstop _ Hwhy) as Herr.
    unfold Create, Update.
    destruct (tfsdk.Get req.(Request.Plan) LicenseResourceModel.zero)
      as [model diags].
    cbn [snd] in Herr. rewrite Herr. eauto 10.
  - pose proof (Hstop _ Hwhy) as Herr.
    unfold Read, Delete.
    destruct (tfsdk.Get req.(Request.State) LicenseResourceModel.zero)
      as [model diags].
    cbn [snd] in Herr. rewrite Herr. eauto 10.
Qed.

(** X8: the adapter never retries and never calls another operation of
    the client than its own. Whatever the client answers, [Create] makes
    no call or the one call [CreateLicense] with the planned name,
    product and type; [Read] no call or the one call [GetLicense] with
    the stored identifier; [Delete] no call or the one call
    [DeleteLicense] with the stored identifier. *)
Theorem operations_call_the_client_at_most_once :
  (calls h (Create req resp) w = []
   \/ exists model,
       req.(Request.Plan) = Some model
       /\ calls h (Create req resp) w
          = [existT _ _
               (CreateLicense
                  (basetypes.ValueString model.(LicenseResourceModel.Name))
                  (basetypes.ValueString model.(LicenseResourceModel.Product))
                  (basetypes.ValueString model.(LicenseResourceModel.Type_)))])
  /\ (calls h (Read req resp) w = []
      \/ exists model,
          req.(Request.State) = Some model
          /\ spec.absent model.(LicenseResourceModel.ID) = false
          /\ calls h (Read req resp) w
             = [existT _ _
                  (GetLicense
                     (basetypes.ValueString model.(LicenseResourceModel.ID)))])
  /\ (calls h (Delete req resp) w = []
      \/ exists model,
          req.(Request.State) = Some model
          /\ spec.absent model.(LicenseResourceModel.ID) = false
          /\ calls h (Delete req resp) w
             = [existT _ _
                  (DeleteLicense
                     (basetypes.ValueString model.(LicenseResourceModel.ID)))]).
Proof.
  split; [|split].
  - unfold Create, calls.
    destruct req.(Request.Plan) as [model|]; cbn [tfsdk.Get].
    + destruct (diag.HasError _); [now left|]. right. exists model.
      split; [reflexivity|]. cbn.
      match goal with
      | |- context [h ?X ?e w] => destruct (h X e w) as [[apiResp [err|]] w1]
      end; reflexivity.
    + cbn [Response.Append Response.Diagnostics]. rewrite HasError_Append.
      cbn [diag.HasError existsb diag.NewErrorDiagnostic diag.severity].
      rewrite orb_true_r. now left.
  - unfold Read, calls.
    destruct req.(Request.State) as [model|]; cbn [tfsdk.Get].
    + destruct (diag.HasError _); [now left|].
      replace (basetypes.IsUnknown _ || basetypes.IsNull _ || _)
        with (spec.absent model.(LicenseResourceModel.ID))
        by now destruct model.(LicenseResourceModel.ID).
      destruct (spec.absent _) eqn:Hid; [now left|]. right. exists model.
      split; [reflexivity|]. split; [exact Hid|]. cbn.
      match goal with
      | |- context [h ?X ?e w] => destruct (h X e w) as [[apiResp [err|]] w1]
      end; reflexivity.
    + cbn [Response.Append Response.Diagnostics]. rewrite HasError_Append.
      cbn [diag.HasError existsb diag.NewErrorDiagnostic diag.severity].
      rewrite orb_true_r. now left.
  - unfold Delete, calls.
    destruct req.(Request.State) as [model|]; cbn [tfsdk.Get].
    + destruct (diag.HasError _); [now left|].
      rewrite <- absent_spec.
      destruct (spec.absent _) eqn:Hid; [now left|]. right. exists model.
      split; [reflexivity|]. split; [exact Hid|]. cbn.
      match goal with
      | |- context [h ?X ?e w] => destruct (h X e w) as [[err|] w1]
      end; reflexivity.
    + cbn [Response.Append Response.Diagnostics]. rewrite HasError_Append.
      cbn [diag.HasError existsb diag.NewErrorDiagnostic diag.severity].
      rewrite orb_true_r. now left.
Qed.

End AdapterMore.

Section AdapterOutcomes.

Import provider.

Variables (req : Request.t) (resp : Response.t).
Hypothesis clean : diag.HasError resp.(Response.Diagnostics) = false.
Context {W : Type} (h : handler clientE W).
Variables (w w' : W) (model : LicenseResourceModel.t).

Lemma AddError_failed (summary detail : string) :
  Response.AddError resp summary detail = spec.failed resp summary detail.
Proof.
  unfold Response.AddError, spec.failed. now rewrite (AddError_fresh _ _ _ clean).
Qed.

Ltac enter Hdata :=
  unfold result; rewrite Hdata; cbn [tfsdk.Get];
  rewrite (Append_clean resp); cbn [Response.Diagnostics]; rewrite clean.

(** X9: when the client returns an error, [Create] and [Read] store
    nothing: the state is left as it was and one error is added, "API
    Call Failed" with the text of the error for [Create], "Failed to
    Fetch License" with "Unable to fetch license: " and the text for
    [Read]; what the client returned beside the error is ignored. *)
Theorem Create_Read_report_the_client_error
    (apiResp : aidbox.LicenseResponse) (err : error) :
  (req.(Request.Plan) = Some model ->
   h _ (CreateLicense
          (basetypes.ValueString model.(LicenseResourceModel.Name))
          (basetypes.ValueString model.(LicenseResourceModel.Product))
          (basetypes.ValueString model.(LicenseResourceModel.Type_))) w
   = ((apiResp, Some err), w') ->
   result h (Create req resp) w = spec.failed resp "API Call Failed" (Error err))
  /\ (req.(Request.State) = Some model ->
      spec.absent model.(LicenseResourceModel.ID) = false ->
      h _ (GetLicense
             (basetypes.ValueString model.(LicenseResourceModel.ID))) w
      = ((apiResp, Some err), w') ->
      result h (Read req resp) w
      = spec.failed resp "Failed to Fetch License"
          ("Unable to fetch license: " ++ Error err)).
Proof.
  split.
  - intros Hplan Hcall. unfold Create. enter Hplan.
    cbn [bind call exec]. rewrite Hcall. cbn [fst].
    apply AddError_failed.
  - intros Hstate Hid Hcall. unfold Read. enter Hstate.
    replace (basetypes.IsUnknown _ || basetypes.IsNull _ || _) with false
      by (destruct model.(LicenseResourceModel.ID); cbn in Hid |- *;
          congruence).
    cbn [bind call exec]. rewrite Hcall. cbn [fst].
    apply AddError_failed.
Qed.

(** X10: [Delete] with a stored identifier removes the resource from
    the state exactly when the client returns no error, and then
    reports nothing; when the client returns an error the state is kept
    and one error "Failed to Delete License" is added, whose detail
    names the identifier and gives the text of the error. *)
Theorem Delete_removes_the_resource_or_reports
    (answer : option error) :
  req.(Request.State) = Some model ->
  spec.absent model.(LicenseResourceModel.ID) = false ->
  h _ (DeleteLicense
         (basetypes.ValueString model.(LicenseResourceModel.ID))) w
  = (answer, w') ->
  result h (Delete req resp) w
  = match answer with
    | None =>
        {| Response.State := None;
           Response.Diagnostics := resp.(Response.Diagnostics) |}
    | Some err =>
        spec.failed resp "Failed to Delete License"
          ("Error while trying to delete the License with ID "
           ++ basetypes.ValueString model.(LicenseResourceModel.ID)
           ++ ": " ++ Error err)
    end.
Proof.
  intros Hstate Hid Hcall. unfold Delete. enter Hstate.
  rewrite <- absent_spec, Hid.
  cbn [bind call exec]. rewrite Hcall. cbn [fst].
  destruct answer as [err|]; [apply AddError_failed|reflexivity].
Qed.

End AdapterOutcomes.

Section Composition.

Import provider.

Context {W : Type} (h : handler clientE W).
Variables (w : W) (resp : Response.t).
Hypothesis clean : diag.HasError resp.(Response.Diagnostics) = false.

Lemma Read_by_id (state : LicenseResourceModel.t) :
  match state.(LicenseResourceModel.ID) with
  | basetypes.NewStringValue (String a id) =>
      calls h (Read (spec.reading (Some state)) resp) w
      = [existT _ _ (GetLicense (String a id))]
      /\ forall apiResp w',
          h _ (GetLicense (String a id)) w = ((apiResp, None), w') ->
          (result h (Read (spec.reading (Some state)) resp) w).(Response.State)
          = Some (spec.stateOf apiResp)
  | _ =>
      Read (spec.reading (Some state)) resp
      = Ret (spec.failed resp "No ID Present"
               "An ID must be present to read the License")
  end.
Proof.
  unfold Read, spec.reading, calls, result. cbn [Request.State tfsdk.Get].
  rewrite (Append_clean resp). cbn [Response.Diagnostics]. rewrite clean.
  pose proof (AddError_fresh _ "No ID Present"
                "An ID must be present to read the License" clean) as Hadd.
  destruct state.(LicenseResourceModel.ID) as [| |[|a id]];
    cbn [basetypes.IsUnknown basetypes.IsNull basetypes.ValueString
         String.eqb orb];
    try (unfold Response.AddError, spec.failed;
         cbn [Response.State Response.Diagnostics]; now rewrite Hadd).
  cbn [bind call exec]. split.
  - now destruct (h _ _ w) as [[apiResp [err|]] w1].
  - intros apiResp w' Hcall. now rewrite Hcall.
Qed.

(** X11: [Create] followed by [Read]. After a create that succeeded,
    the state holds the identifier of the response; a read of that state
    makes the one call [GetLicense] with that identifier. When the
    response of the create carried no identifier, the read is refused
    with "No ID Present" and no call is made. *)
Theorem Read_after_Create
    (created : Response.t) (plan : Request.t) (model : LicenseResourceModel.t)
    (apiResp : aidbox.LicenseResponse) (w0 w1 : W) :
  diag.HasError created.(Response.Diagnostics) = false ->
  plan.(Request.Plan) = Some model ->
  h _ (CreateLicense
         (basetypes.ValueString model.(LicenseResourceModel.Name))
         (basetypes.ValueString model.(LicenseResourceModel.Product))
         (basetypes.ValueString model.(LicenseResourceModel.Type_))) w0
  = ((apiResp, None), w1) ->
  let stored := (result h (Create plan created) w0).(Response.State) in
  let id := apiResp.(aidbox.LicenseResponse_License).(aidbox.ID) in
  if String.eqb id "" then
    Read (spec.reading stored) resp
    = Ret (spec.failed resp "No ID Present"
             "An ID must be present to read the License")
  else
    calls h (Read (spec.reading stored) resp) w = [existT _ _ (GetLicense id)].
Proof.
  intros Hclean Hplan Hcall stored id. subst stored.
  rewrite (Create_success plan created Hclean h w0 w1 model apiResp
             Hplan Hcall).
  cbn [Response.State]. rewrite mapModelFromAPIResponse_stateOf.
  pose proof (Read_by_id (spec.stateOf apiResp)) as Hread.
  cbn [spec.stateOf LicenseResourceModel.ID] in Hread. fold id in Hread.
  destruct id as [|a id']; [exact Hread|]. exact (proj1 Hread).
Qed.

(** X12: [ImportState] followed by [Read], for an identifier that is
    not empty. With a framework that passes the identifier through, the
    import reports nothing and seeds the null state with the identifier
    alone; a read of that state makes the one call [GetLicense] with
    that identifier and, when the client answers without an error, every
    field of the state comes from the answer. *)
Theorem Read_after_ImportState
    (framework : ImportPassthrough) (id : string)
    (diags : diag.Diagnostics) :
  spec.passesThrough framework ->
  id <> "" ->
  let seeded :=
    ImportState {| ImportStateRequest.ID := id |}
      {| Response.State := None; Response.Diagnostics := diags |} in
  seeded.(Response.Diagnostics) = diags
  /\ seeded.(Response.State)
     = Some (LicenseResourceModel.set_ID (basetypes.NewStringValue id)
               LicenseResourceModel.zero)
  /\ calls h (Read (spec.reading seeded.(Response.State)) resp) w
     = [existT _ _ (GetLicense id)]
  /\ forall apiResp w',
      h _ (GetLicense id) w = ((apiResp, None), w') ->
      (result h (Read (spec.reading seeded.(Response.State)) resp) w)
        .(Response.State)
      = Some (spec.stateOf apiResp).
Proof.
  intros Hframework Hid. cbv zeta. unfold ImportState.
  rewrite (Hframework id diags Hid). cbn [Response.State Response.Diagnostics].
  split; [reflexivity|]. split; [reflexivity|].
  pose proof (Read_by_id
                (LicenseResourceModel.set_ID (basetypes.NewStringValue id)
                   LicenseResourceModel.zero)) as Hread.
  cbn [LicenseResourceModel.set_ID LicenseResourceModel.ID] in Hread.
  destruct id as [|a id']; [contradiction|exact Hread].
Qed.

End Composition.

(* ------------------------------------------------------------------ *)
(** ** The adapter over the HTTP client *)

Section OverHTTP.

Import provider.

Context {marshaler : aidbox.Marshaler} {builder : http.RequestBuilder}
        {unmarshaler : aidbox.Unmarshaler}.
Context {W : Type} (net : handler http.httpE W).
Variables (c : aidbox.HTTPClient) (w : W).

(** An operation that makes one call and ends: over an implementation
    of the interface, it runs the implementation of that call. *)
Lemma exec_interp_call {E F : Type -> Type} {A X : Type}
    (impl : forall X, E X -> Prog F X) (h : handler F W)
    (e : E X) (f : X -> Prog E A) (k : X -> A) (w0 : W) :
  (forall x, f x = Ret (k x)) ->
  exec h (interp impl (bind (call e) f)) w0
  = let '(x, w1, t) := exec h (impl _ e) w0 in (k x, w1, t).
Proof.
  intros Hk. cbn [call bind interp]. rewrite exec_bind.
  destruct (exec h (impl X e) w0) as [[x w1] t].
  rewrite Hk. cbn. now rewrite app_nil_r.
Qed.

Variables (req : Request.t) (resp : Response.t)
          (model : LicenseResourceModel.t).
Hypothesis clean : diag.HasError resp.(Response.Diagnostics) = false.

(** X13: [Delete] over the HTTP client. With a stored identifier, when
    the remote answers the request with status 200 the resource is
    removed from the state, whatever the body; with any other status
    the state is kept and the error reported names the identifier, the
    status line and the body, also when the body says "You are not a
    member of the project": deleting a license that is already gone
    fails. One request is sent in both cases. *)
Theorem Delete_over_HTTP
    (answer : http.Response) (bodyBytes : string) :
  req.(Request.State) = Some model ->
  spec.absent model.(LicenseResourceModel.ID) = false ->
  let id := basetypes.ValueString model.(LicenseResourceModel.ID) in
  spec.received c net w (aidbox.DeleteLicense c id) answer ->
  answer.(http.ReadAll) = (bodyBytes, None) ->
  let run := interp (HTTPClient_Client c) (Delete req resp) in
  length (calls net run w) = 1
  /\ result net run w
     = if (answer.(http.StatusCode) =? 200)%Z then
         {| Response.State := None;
            Response.Diagnostics := resp.(Response.Diagnostics) |}
       else
         spec.failed resp "Failed to Delete License"
           ("Error while trying to delete the License with ID " ++ id
            ++ ": API response error: " ++ answer.(http.Status)
            ++ "; Body: " ++ bodyBytes).
Proof.
  intros Hstate Hid id Hrecv Hbody run. subst run.
  destruct (DeleteLicense_exec net c w id) as [Hres Hcalls].
  pose proof Hrecv as Hone. destruct Hone as (sent & w1 & Hone & _).
  apply (received_calls c net w _ _ answer Hcalls) in Hrecv.
  rewrite (makeAPICall_received net c _ _ w answer Hrecv) in Hres.
  unfold spec.afterDo in Hres. rewrite Hbody in Hres.
  unfold Delete. rewrite Hstate. cbn [tfsdk.Get].
  rewrite (Append_clean resp). cbn [Response.Diagnostics]. rewrite clean.
  rewrite <- absent_spec, Hid. fold id.
  unfold calls, result in *.
  rewrite (exec_interp_call (HTTPClient_Client c) net (DeleteLicense id) _
             (fun err =>
                match err with
                | Some err =>
                    Response.AddError
                      {| Response.State := resp.(Response.State);
                         Response.Diagnostics := resp.(Response.Diagnostics) |}
                      "Failed to Delete License"
                      ("Error while trying to delete the License with ID "
                       ++ id ++ ": " ++ Error err)
                | None =>
                    Response.RemoveResource
                      {| Response.State := resp.(Response.State);
                         Response.Diagnostics := resp.(Response.Diagnostics) |}
                end))
    by (now intros [err|]).
  cbn [HTTPClient_Client].
  destruct (exec net (aidbox.DeleteLicense c id) w) as [[out w2] t].
  cbn [fst snd] in *. split.
  - apply (f_equal (@length _)) in Hone. unfold spec.requests in Hone.
    now rewrite length_map in Hone.
  - rewrite Hres.
    destruct (answer.(http.StatusCode) =? 200)%Z; cbn [snd]; [reflexivity|].
    cbn [Error]. unfold Response.AddError, spec.failed.
    cbn [Response.State Response.Diagnostics].
    now rewrite (AddError_fresh _ _ _ clean).
Qed.

(** X14: [Create] over the HTTP client. When the remote answers the
    request with status 200 and a body the decoder accepts, the state
    stored is, field by field, the license and the token of the decoded
    envelope and nothing is reported; when the decoder rejects the body
    nothing is stored and the error "API Call Failed" gives the text of
    the parse error. One request is sent in both cases. *)
Theorem Create_over_HTTP
    (answer : http.Response) (bodyBytes : string) :
  req.(Request.Plan) = Some model ->
  let name := basetypes.ValueString model.(LicenseResourceModel.Name) in
  let product := basetypes.ValueString model.(LicenseResourceModel.Product) in
  let licenseType := basetypes.ValueString model.(LicenseResourceModel.Type_) in
  spec.received c net w (aidbox.CreateLicense c name product licenseType)
    answer ->
  answer.(http.StatusCode) = 200%Z ->
  answer.(http.ReadAll) = (bodyBytes, None) ->
  let run := interp (HTTPClient_Client c) (Create req resp) in
  length (calls net run w) = 1
  /\ result net run w
     = match aidbox.yaml_Unmarshal bodyBytes with
       | (apiResp, None) =>
           {| Response.State :=
                Some (spec.stateOf
                        {| aidbox.LicenseResponse_License :=
                             apiResp.(aidbox.Result).(aidbox.Result_License);
                           aidbox.JWT :=
                             apiResp.(aidbox.Result).(aidbox.Result_JWT) |});
              Response.Diagnostics := resp.(Response.Diagnostics) |}
       | (_, Some err) =>
           spec.failed resp "API Call Failed"
             ("failed to parse YAML response: " ++ Error err)
       end.
Proof.
  intros Hplan name product licenseType Hrecv Hcode Hbody run. subst run.
  destruct (CreateLicense_exec net c w name product licenseType)
    as [Hres Hcalls].
  pose proof Hrecv as Hone. destruct Hone as (sent & w1 & Hone & _).
  apply (received_calls c net w _ _ answer Hcalls) in Hrecv.
  rewrite (makeAPICall_received net c _ _ w answer Hrecv) in Hres.
  unfold spec.afterDo in Hres. rewrite Hbody, Hcode in Hres.
  cbn [Z.eqb Pos.eqb] in Hres.
  unfold Create. rewrite Hplan. cbn [tfsdk.Get].
  rewrite (Append_clean resp). cbn [Response.Diagnostics]. rewrite clean.
  fold name product licenseType.
  unfold calls, result in *.
  rewrite (exec_interp_call (HTTPClient_Client c) net
             (CreateLicense name product licenseType) _
             (fun x : aidbox.LicenseResponse * option error =>
                match snd x with
                | Some err =>
                    Response.AddError
                      {| Response.State := resp.(Response.State);
                         Response.Diagnostics := resp.(Response.Diagnostics) |}
                      "API Call Failed" (Error err)
                | None =>
                    Response.Set_
                      {| Response.State := resp.(Response.State);
                         Response.Diagnostics := resp.(Response.Diagnostics) |}
                      (mapModelFromAPIResponse model (fst x))
                end))
    by (now intros [apiResp [err|]]).
  cbn [HTTPClient_Client].
  destruct (exec net (aidbox.CreateLicense c name product licenseType) w)
    as [[out w2] t].
  cbn [fst snd] in *. split.
  - apply (f_equal (@length _)) in Hone. unfold spec.requests in Hone.
    now rewrite length_map in Hone.
  - rewrite Hres. unfold aidbox.parseYAMLResponse.
    destruct (aidbox.yaml_Unmarshal bodyBytes) as [apiResp [err|]];
      cbn [fst snd].
    + cbn [Error Errorf_w]. unfold Response.AddError, spec.failed.
      cbn [Response.State Response.Diagnostics].
      now rewrite (AddError_fresh _ _ _ clean).
    + now rewrite mapModelFromAPIResponse_stateOf.
Qed.

End OverHTTP.

(* ------------------------------------------------------------------ *)
(** ** More on the configuration *)

Section ConfigurationMore.

Import provider.

Variables (req : ConfigureRequest.t) (resp : ConfigureResponse.t).

(** X15: a token given in the configuration wins over the environment:
    with a configured token that is not empty, [Configure] gives the
    same response whatever the environment holds, AIDBOX_API_TOKEN
    included. *)
Theorem Configure_prefers_the_configured_token
    (data : AidboxProviderModel.t) (environ1 environ2 : Environ) :
  req.(ConfigureRequest.Config) = Some data ->
  spec.absent data.(AidboxProviderModel.Token) = false ->
  Configure (environ := environ1) req resp
  = Configure (environ := environ2) req resp.
Proof.
  intros Hconfig Htoken. unfold Configure. rewrite Hconfig.
  cbn [tfsdk.Get].
  destruct (diag.HasError _); [reflexivity|].
  rewrite <- !absent_spec.
  destruct (spec.absent data.(AidboxProviderModel.Endpoint));
    cbn [AidboxProviderModel.Token]; rewrite <- ?absent_spec, Htoken;
    reflexivity.
Qed.

Hypothesis clean : diag.HasError resp.(ConfigureResponse.Diagnostics) = false.
Hypothesis fresh : resp.(ConfigureResponse.ResourceData) = None.

Context {environ : Environ}.

(** What a fresh [Configure] leaves behind: an error and no provider
    data, or the data for an endpoint and a token that are not empty. *)
Lemma Configure_cases :
  let out := Configure req resp in
  (diag.HasError out.(ConfigureResponse.Diagnostics) = true
   /\ out.(ConfigureResponse.ResourceData) = None
   /\ out.(ConfigureResponse.DataSourceData)
      = resp.(ConfigureResponse.DataSourceData))
  \/ (exists endpoint token : string,
         endpoint <> "" /\ token <> ""
         /\ out
            = {| ConfigureResponse.DataSourceData := Some http.DefaultClient;
                 ConfigureResponse.ResourceData :=
                   Some {| ProviderData.Endpoint := endpoint;
                           ProviderData.Token := token;
                           ProviderData.Client :=
                             aidbox.NewClient endpoint token |};
                 ConfigureResponse.Diagnostics :=
                   resp.(ConfigureResponse.Diagnostics) |}).
Proof.
  cbv zeta. unfold Configure.
  destruct req.(ConfigureRequest.Config) as [data|]; cbn [tfsdk.Get].
  2:{ left. cbn [ConfigureResponse.Diagnostics]. rewrite HasError_Append.
      cbn [diag.HasError existsb diag.NewErrorDiagnostic diag.severity].
      rewrite orb_true_r.
      cbn [ConfigureResponse.ResourceData ConfigureResponse.Diagnostics
           ConfigureResponse.DataSourceData].
      rewrite HasError_Append, fresh. cbn. now rewrite orb_true_r. }
  rewrite Append_nil. cbn [ConfigureResponse.Diagnostics]. rewrite clean.
  rewrite <- !absent_spec.
  assert (Hvalue : forall s, spec.absent s = false ->
                             basetypes.ValueString s <> "").
  { intros s Hs Heq. apply absent_value in Hs. now rewrite Heq in Hs. }
  destruct (spec.absent data.(AidboxProviderModel.Endpoint)) eqn:Hend;
    cbn [AidboxProviderModel.Token AidboxProviderModel.Endpoint];
    rewrite <- ?absent_spec;
    destruct (spec.absent data.(AidboxProviderModel.Token)) eqn:Htok;
    try (destruct (String.eqb_spec (os_Getenv "AIDBOX_API_TOKEN") "")
           as [Henv|Henv]);
    cbn [negb basetypes.ValueString
         AidboxProviderModel.Token AidboxProviderModel.Endpoint];
    try (left;
         cbn [ConfigureResponse.ResourceData ConfigureResponse.Diagnostics
              ConfigureResponse.DataSourceData];
         rewrite fresh; now auto using HasError_AddError);
    right; eexists _, _; (split; [|split; [|reflexivity]]);
      auto; discriminate.
Qed.

(** X16: [Configure] hands provider data to the resources exactly when
    it reports no error, and that data is complete: the endpoint and the
    token are not empty, and the client is the one [NewClient] builds
    from them, on the default transport. *)
Theorem Configure_hands_over_complete_data :
  let out := Configure req resp in
  match out.(ConfigureResponse.ResourceData) with
  | Some data =>
      diag.HasError out.(ConfigureResponse.Diagnostics) = false
      /\ data.(ProviderData.Endpoint) <> ""
      /\ data.(ProviderData.Token) <> ""
      /\ data.(ProviderData.Client)
         = {| aidbox.Endpoint := data.(ProviderData.Endpoint);
              aidbox.Token := data.(ProviderData.Token);
              aidbox.Client := http.DefaultClient |}
      /\ out.(ConfigureResponse.DataSourceData) = Some http.DefaultClient
  | None =>
      diag.HasError out.(ConfigureResponse.Diagnostics) = true
      /\ out.(ConfigureResponse.DataSourceData)
         = resp.(ConfigureResponse.DataSourceData)
  end.
Proof.
  cbv zeta.
  destruct Configure_cases
    as [(Herr & -> & Hsource) | (endpoint & token & Hend & Htok & ->)].
  - now split.
  - cbn [ConfigureResponse.ResourceData ConfigureResponse.Diagnostics
         ConfigureResponse.DataSourceData ProviderData.Endpoint
         ProviderData.Token ProviderData.Client].
    repeat split; auto.
Qed.

(** X17: the resource after the provider. Configured with what a fresh
    [Configure] of the provider handed over for a configuration that
    decodes, a new [LicenseResource] holds a client for the endpoint and
    the token the provider resolved (the configured endpoint, or
    "https://aidbox.app/rpc"; the configured token, or the value of
    AIDBOX_API_TOKEN), on the default transport, and the same endpoint
    and token beside it; with no token at all the provider handed
    nothing over and the resource stays as it was made; in both cases
    the resource reports nothing. Handed nothing it keeps what it had;
    handed a value of another type it keeps what it had and adds the
    error "Unexpected Resource Configure Type", which names that type. *)
Theorem LicenseResource_Configure_after_the_provider
    (data : AidboxProviderModel.t) :
  req.(ConfigureRequest.Config) = Some data ->
  let endpoint :=
    if spec.absent data.(AidboxProviderModel.Endpoint)
    then "https://aidbox.app/rpc"
    else basetypes.ValueString data.(AidboxProviderModel.Endpoint) in
  let token :=
    if spec.absent data.(AidboxProviderModel.Token)
    then os_Getenv "AIDBOX_API_TOKEN"
    else basetypes.ValueString data.(AidboxProviderModel.Token) in
  let out := Configure req resp in
  let handed :=
    option_map ProviderDataPtr out.(ConfigureResponse.ResourceData) in
  LicenseResource.Configure NewLicenseResource handed []
  = (if String.eqb token "" then NewLicenseResource
     else {| LicenseResource.client :=
               Some {| aidbox.Endpoint := endpoint; aidbox.Token := token;
                       aidbox.Client := http.DefaultClient |};
             LicenseResource.endpoint := endpoint;
             LicenseResource.token := token |},
     [])
  /\ endpoint <> ""
  /\ (forall (r : LicenseResource.t) (diags : diag.Diagnostics),
         LicenseResource.Configure r None diags = (r, diags))
  /\ (forall (r : LicenseResource.t) (typeName : string)
             (diags : diag.Diagnostics),
         diag.HasError diags = false ->
         LicenseResource.Configure r (Some (OtherValue typeName)) diags
         = (r, diags
               ++ [diag.NewErrorDiagnostic "Unexpected Resource Configure Type"
                     ("Expected *ProviderData, got: " ++ typeName
                      ++ ". Please report this issue to the provider developers.")])).
Proof.
  intros Hconfig endpoint token out handed.
  assert (Hendpoint : endpoint <> "").
  { subst endpoint.
    destruct (spec.absent data.(AidboxProviderModel.Endpoint)) eqn:Habs;
      [discriminate|].
    intros Heq. apply absent_value in Habs. now rewrite Heq in Habs. }
  split; [|split; [exact Hendpoint|split]].
  - subst handed out endpoint token. unfold Configure. rewrite Hconfig.
    cbn [tfsdk.Get]. rewrite Append_nil.
    cbn [ConfigureResponse.Diagnostics]. rewrite clean.
    rewrite <- !absent_spec.
    destruct (spec.absent data.(AidboxProviderModel.Endpoint)) eqn:Hend;
      cbn [AidboxProviderModel.Token AidboxProviderModel.Endpoint];
      rewrite <- ?absent_spec;
      destruct (spec.absent data.(AidboxProviderModel.Token)) eqn:Htok;
      try (destruct (String.eqb (os_Getenv "AIDBOX_API_TOKEN") "") eqn:Henv);
      cbn [negb ConfigureResponse.ResourceData basetypes.ValueString
           AidboxProviderModel.Token AidboxProviderModel.Endpoint];
      rewrite ?fresh, ?(absent_value _ Htok); reflexivity.
  - reflexivity.
  - intros r typeName diags Hclean. unfold LicenseResource.Configure.
    now rewrite (AddError_fresh _ _ _ Hclean).
Qed.

End ConfigurationMore.

(* ------------------------------------------------------------------ *)
(** ** Schemas *)

Section Schemas.

Import provider.

(** X18: the schemas and the models agree. The attributes of the
    resource schema are, name by name and kind by kind, the [tfsdk]
    fields of [LicenseResourceModel], and those of the provider schema
    the fields of [AidboxProviderModel]; no name occurs twice. This is
    what lets the framework decode a plan or a state into the model and
    store the model back. *)
Theorem schemas_match_the_models :
  let fields (s : list (string * schema.Attribute)) :=
    map (fun na => (fst na, (snd na).(schema.Kind))) s in
  fields LicenseResource.Schema = LicenseResourceModel_tfsdk
  /\ fields AidboxProvider.Schema = AidboxProviderModel_tfsdk
  /\ NoDup (map fst LicenseResource.Schema)
  /\ NoDup (map fst AidboxProvider.Schema).
Proof.
  cbv zeta. split; [reflexivity|]. split; [reflexivity|].
  split; cbn [map fst LicenseResource.Schema AidboxProvider.Schema];
    repeat (constructor; [cbn; intuition discriminate|]); constructor.
Qed.

(** X19: no attribute of the license can change in place. An attribute
    of the resource schema that a configuration can set (required or
    optional) carries the plan modifier RequiresReplace, and these are
    name, product and type; every other attribute is computed only.
    Only product has a default. *)
Theorem settable_attributes_require_replace
    (name : string) (attr : schema.Attribute) :
  In (name, attr) LicenseResource.Schema ->
  if attr.(schema.Required) || attr.(schema.Optional) then
    In name ["name"; "product"; "type"]
    /\ attr.(schema.PlanModifiers) = [schema.RequiresReplace]
    /\ (attr.(schema.Default) <> None -> name = "product")
  else
    ~ In name ["name"; "product"; "type"]
    /\ attr.(schema.Computed) = true
    /\ attr.(schema.PlanModifiers) = []
    /\ attr.(schema.Default) = None.
Proof.
  intros Hin. cbn [In LicenseResource.Schema] in Hin.
  repeat (destruct Hin as [Heq|Hin];
          [injection Heq as <- <-; cbn;
           repeat split; auto; try discriminate; intuition discriminate|]).
  contradiction.
Qed.

End Schemas.

(* ------------------------------------------------------------------ *)
(** ** The further properties on concrete inputs *)

Section MoreExamples.

Import provider.

Existing Instance env.marshal.
Existing Instance env.newRequest.
Existing Instance env.unmarshal.

Ltac answered := unfold spec.received; do 2 eexists; split; reflexivity.

Lemma makeAPICall_sends_the_built_request_witness :
  exists sent : http.Request,
    calls (env.network (env.response 200 "200 OK" "result: {}", None))
      (aidbox.makeAPICall env.client "portal.portal/get-license"
         [("token", "secret"); ("id", "lic-1")]) tt
    = [existT _ _ (http.Do http.DefaultClient sent)]
    /\ sent.(http.Method) = "POST"
    /\ sent.(http.URL) = "https://aidbox.app/rpc"
    /\ sent.(http.Body) = "method: portal.portal/get-license"
    /\ http.Header_Get "Content-Type" sent = "text/yaml"
    /\ http.Header_Get "Accept" sent = "text/yaml".
Proof.
  exact (makeAPICall_sends_the_built_request
           (env.network (env.response 200 "200 OK" "result: {}", None))
           env.client tt "portal.portal/get-license"
           [("token", "secret"); ("id", "lic-1")]
           "method: portal.portal/get-license"
           {| http.Method := "POST"; http.URL := "https://aidbox.app/rpc";
              http.Header := [];
              http.Body := "method: portal.portal/get-license" |}
           eq_refl eq_refl).
Defined.

(** With an endpoint that is no URL nothing is sent. *)
Lemma makeAPICall_sends_at_most_once_witness :
  calls (env.network (env.response 200 "200 OK" "result: {}", None))
    (aidbox.makeAPICall env.misconfigured "portal.portal/remove-license"
       [("token", "secret"); ("id", "lic-1")]) tt
  = [].
Proof.
  exact (proj1 (proj2
           (makeAPICall_sends_at_most_once
              (env.network (env.response 200 "200 OK" "result: {}", None))
              env.misconfigured tt "portal.portal/remove-license"
              [("token", "secret"); ("id", "lic-1")]))
           (Errorf_w "failed to create HTTP request: "
              (errorString ("parse " ++ env.dquote ++ "://aidbox.app/rpc"
                            ++ env.dquote ++ ": missing protocol scheme")))
           eq_refl).
Defined.

Lemma makeAPICall_error_keeps_its_cause_witness :
  let refusedConnection := errorString "dial tcp: connection refused" in
  let e := Errorf_w "API call failed: " refusedConnection in
  fst (result (env.network (env.response 0 "" "", Some refusedConnection))
         (aidbox.makeAPICall env.client "portal.portal/get-license"
            [("token", "secret"); ("id", "lic-1")]) tt) = ""
  /\ Unwrap e = Some refusedConnection
  /\ Error e = "API call failed: dial tcp: connection refused".
Proof.
  cbv zeta.
  destruct (makeAPICall_error_keeps_its_cause
              (marshaler := env.marshal) (builder := env.newRequest)
              (env.network
                 (env.response 0 "" "",
                  Some (errorString "dial tcp: connection refused")))
              env.client tt "portal.portal/get-license"
              [("token", "secret"); ("id", "lic-1")]
              (Errorf_w "API call failed: "
                 (errorString "dial tcp: connection refused"))
              eq_refl)
    as [Hbody [(cause & Hmarshal & _)
              |[(yamlData & cause & _ & Hbuild & _)
               |(yamlData & req & resp & answer & w' & _ & _ & Hdo & Hcause)]]].
  - discriminate Hmarshal.
  - split; [exact Hbody|]. split; reflexivity.
  - split; [exact Hbody|]. split; reflexivity.
Defined.

(** The answer that [GetLicense] takes for "not found" is an error for
    [CreateLicense] and for [DeleteLicense]. *)
Lemma CreateLicense_DeleteLicense_return_every_error_witness :
  let net :=
    env.network
      (env.response 403 "403 Forbidden" "You are not a member of the project",
       None) in
  let e :=
    errorString
      "API response error: 403 Forbidden; Body: You are not a member of the project" in
  result net
    (aidbox.CreateLicense env.client "license-one" "aidbox" "development") tt
  = (aidbox.LicenseResponse_zero, Some e)
  /\ result net (aidbox.DeleteLicense env.client "lic-1") tt = Some e.
Proof.
  cbv zeta.
  destruct (CreateLicense_DeleteLicense_return_every_error
              (env.network
                 (env.response 403 "403 Forbidden"
                    "You are not a member of the project", None))
              env.client tt "license-one" "aidbox" "development" "lic-1"
              (errorString
                 "API response error: 403 Forbidden; Body: You are not a member of the project"))
    as [Hcreate Hdelete].
  exact (conj (Hcreate eq_refl) (Hdelete eq_refl)).
Defined.

Lemma error_comes_with_the_empty_result_witness :
  fst (result (env.network (env.response 200 "200 OK" "][", None))
         (aidbox.CreateLicense env.client "license-one" "aidbox"
            "development") tt)
  = aidbox.LicenseResponse_zero.
Proof.
  exact (proj1 (error_comes_with_the_empty_result
                  (env.network (env.response 200 "200 OK" "][", None))
                  env.client tt "license-one" "aidbox" "development" "lic-1")
           (Errorf_w "failed to parse YAML response: "
              (errorString "yaml: unmarshal errors: cannot unmarshal"))
           eq_refl).
Defined.


Lemma operations_stop_on_an_earlier_error_witness :
  let nothing := {| Request.Plan := None; Request.State := None |} in
  exists out1 out2 : Response.t,
    Read nothing (env.fresh None) = Ret out1
    /\ Delete nothing (env.fresh None) = Ret out2
    /\ out1.(Response.State) = None
    /\ out2.(Response.State) = None
    /\ diag.HasError out1.(Response.Diagnostics) = true
    /\ diag.HasError out2.(Response.Diagnostics) = true.
Proof.
  exact (proj2 (operations_stop_on_an_earlier_error
                  {| Request.Plan := None; Request.State := None |}
                  (env.fresh None))
           (or_intror eq_refl)).
Defined.

Lemma Create_Read_report_the_client_error_witness :
  let timeout := errorString "API call failed: context deadline exceeded" in
  let failing := env.double (aidbox.LicenseResponse_zero, Some timeout) None in
  result failing (Read env.refresh (env.fresh (Some env.prior))) tt
  = {| Response.State := Some env.prior;
       Response.Diagnostics :=
         [diag.NewErrorDiagnostic "Failed to Fetch License"
            "Unable to fetch license: API call failed: context deadline exceeded"] |}.
Proof.
  exact (proj2 (Create_Read_report_the_client_error
                  env.refresh (env.fresh (Some env.prior)) eq_refl
                  (env.double
                     (aidbox.LicenseResponse_zero,
                      Some (errorString
                              "API call failed: context deadline exceeded"))
                     None)
                  tt tt env.prior aidbox.LicenseResponse_zero
                  (errorString "API call failed: context deadline exceeded"))
           eq_refl eq_refl eq_refl).
Defined.

Lemma Delete_removes_the_resource_or_reports_witness :
  result (env.double (aidbox.LicenseResponse_zero, None) None)
    (Delete env.refresh (env.fresh (Some env.prior))) tt
  = {| Response.State := None; Response.Diagnostics := [] |}.
Proof.
  exact (Delete_removes_the_resource_or_reports
           env.refresh (env.fresh (Some env.prior)) eq_refl
           (env.double (aidbox.LicenseResponse_zero, None) None)
           tt tt env.prior None eq_refl eq_refl eq_refl).
Defined.

End MoreExamples.

Section MoreExamplesOfTheAdapter.

Import provider.

Existing Instance env.marshal.
Existing Instance env.newRequest.
Existing Instance env.unmarshal.

Ltac answered := unfold spec.received; do 2 eexists; split; reflexivity.

Lemma Read_after_Create_witness :
  let issued :=
    {| aidbox.LicenseResponse_License := env.license1;
       aidbox.JWT := "eyJhbGciOi" |} in
  let remote := env.double (issued, None) None in
  let planned := env.stored "" "license-one" in
  let stored :=
    (result remote
       (Create {| Request.Plan := Some planned; Request.State := None |}
               (env.fresh None)) tt).(Response.State) in
  calls remote (Read (spec.reading stored) (env.fresh stored)) tt
  = [existT _ _ (GetLicense "lic-1")].
Proof.
  exact (Read_after_Create
           (env.double
              ({| aidbox.LicenseResponse_License := env.license1;
                  aidbox.JWT := "eyJhbGciOi" |}, None) None)
           tt
           (env.fresh
              (Some (spec.stateOf
                       {| aidbox.LicenseResponse_License := env.license1;
                          aidbox.JWT := "eyJhbGciOi" |})))
           eq_refl (env.fresh None)
           {| Request.Plan := Some (env.stored "" "license-one");
              Request.State := None |}
           (env.stored "" "license-one")
           {| aidbox.LicenseResponse_License := env.license1;
              aidbox.JWT := "eyJhbGciOi" |}
           tt tt eq_refl eq_refl eq_refl).
Defined.

Lemma passthrough_passesThrough : spec.passesThrough env.passthrough.
Proof.
  intros id diags Hid. unfold ImportStatePassthroughID, env.passthrough.
  cbn [ImportStateRequest.ID Response.State Response.Diagnostics].
  destruct id as [|a id']; [contradiction|reflexivity].
Defined.

Lemma Read_after_ImportState_witness :
  let seeded :=
    ImportState (framework := env.passthrough)
      {| ImportStateRequest.ID := "lic-1" |} (env.fresh None) in
  let issued :=
    {| aidbox.LicenseResponse_License := env.license1;
       aidbox.JWT := "eyJhbGciOi" |} in
  calls (env.double (issued, None) None)
    (Read (spec.reading seeded.(Response.State))
          (env.fresh seeded.(Response.State))) tt
  = [existT _ _ (GetLicense "lic-1")]
  /\ (result (env.double (issued, None) None)
        (Read (spec.reading seeded.(Response.State))
              (env.fresh seeded.(Response.State))) tt).(Response.State)
     = Some (spec.stateOf issued).
Proof.
  cbv zeta.
  destruct (Read_after_ImportState
              (env.double
                 ({| aidbox.LicenseResponse_License := env.license1;
                     aidbox.JWT := "eyJhbGciOi" |}, None) None)
              tt
              (env.fresh
                 (Some (LicenseResourceModel.set_ID
                          (basetypes.NewStringValue "lic-1")
                          LicenseResourceModel.zero)))
              eq_refl env.passthrough "lic-1" []
              passthrough_passesThrough
              (fun H : "lic-1" = "" => eq_ind "lic-1"
                 (fun s => match s with
                           | EmptyString => False
                           | String _ _ => True
                           end) I "" H))
    as (_ & _ & Hcalls & Hstate).
  exact (conj Hcalls (Hstate _ tt eq_refl)).
Defined.

(** Deleting a license the remote no longer knows fails. *)
Lemma Delete_over_HTTP_witness :
  result
    (env.network
       (env.response 403 "403 Forbidden"
          "You are not a member of the project", None))
    (interp (HTTPClient_Client env.client)
       (Delete env.refresh (env.fresh (Some env.prior)))) tt
  = {| Response.State := Some env.prior;
       Response.Diagnostics :=
         [diag.NewErrorDiagnostic "Failed to Delete License"
            "Error while trying to delete the License with ID lic-1: API response error: 403 Forbidden; Body: You are not a member of the project"] |}.
Proof.
  refine (proj2
            (Delete_over_HTTP
               (env.network
                  (env.response 403 "403 Forbidden"
                     "You are not a member of the project", None))
               env.client tt env.refresh (env.fresh (Some env.prior))
               env.prior eq_refl
               (env.response 403 "403 Forbidden"
                  "You are not a member of the project")
               "You are not a member of the project"
               eq_refl eq_refl _ eq_refl)).
  answered.
Defined.

Lemma Create_over_HTTP_witness :
  result (env.network (env.response 200 "200 OK" "result: {}", None))
    (interp (HTTPClient_Client env.client)
       (Create {| Request.Plan := Some (env.stored "" "license-one");
                  Request.State := None |}
               (env.fresh None))) tt
  = {| Response.State := Some (spec.stateOf aidbox.LicenseResponse_zero);
       Response.Diagnostics := [] |}.
Proof.
  refine (proj2
            (Create_over_HTTP
               (env.network (env.response 200 "200 OK" "result: {}", None))
               env.client tt
               {| Request.Plan := Some (env.stored "" "license-one");
                  Request.State := None |}
               (env.fresh None) (env.stored "" "license-one") eq_refl
               (env.response 200 "200 OK" "result: {}") "result: {}"
               eq_refl _ eq_refl eq_refl)).
  answered.
Defined.

Lemma Configure_prefers_the_configured_token_witness :
  let configured :=
    {| ConfigureRequest.Config :=
         Some {| AidboxProviderModel.Endpoint := basetypes.NewStringNull;
                 AidboxProviderModel.Token :=
                   basetypes.NewStringValue "from-config" |} |} in
  Configure (environ := env.tokenSet) configured env.blank
  = Configure (environ := fun _ => "") configured env.blank.
Proof.
  exact (Configure_prefers_the_configured_token
           {| ConfigureRequest.Config :=
                Some {| AidboxProviderModel.Endpoint := basetypes.NewStringNull;
                        AidboxProviderModel.Token :=
                          basetypes.NewStringValue "from-config" |} |}
           env.blank
           {| AidboxProviderModel.Endpoint := basetypes.NewStringNull;
              AidboxProviderModel.Token :=
                basetypes.NewStringValue "from-config" |}
           env.tokenSet (fun _ => "") eq_refl eq_refl).
Defined.

Lemma Configure_hands_over_complete_data_witness :
  let out := Configure (environ := env.tokenSet) env.unconfigured env.blank in
  diag.HasError out.(ConfigureResponse.Diagnostics) = false
  /\ exists data : ProviderData.t,
      out.(ConfigureResponse.ResourceData) = Some data
      /\ data.(ProviderData.Endpoint) <> ""
      /\ data.(ProviderData.Token) <> "".
Proof.
  cbv zeta.
  pose proof (Configure_hands_over_complete_data
                env.unconfigured env.blank eq_refl eq_refl
                (environ := env.tokenSet)) as H.
  cbv zeta in H. cbn in H. destruct H as (Hok & Hendpoint & Htoken & _).
  split; [exact Hok|]. eexists. split; [reflexivity|].
  split; [exact Hendpoint|exact Htoken].
Defined.

Lemma LicenseResource_Configure_after_the_provider_witness :
  let out := Configure (environ := env.tokenSet) env.unconfigured env.blank in
  LicenseResource.Configure NewLicenseResource
    (option_map ProviderDataPtr out.(ConfigureResponse.ResourceData)) []
  = ({| LicenseResource.client :=
          Some (aidbox.NewClient "https://aidbox.app/rpc" "from-env");
        LicenseResource.endpoint := "https://aidbox.app/rpc";
        LicenseResource.token := "from-env" |}, []).
Proof.
  exact (proj1
           (LicenseResource_Configure_after_the_provider
              env.unconfigured env.blank eq_refl eq_refl
              (environ := env.tokenSet)
              {| AidboxProviderModel.Endpoint := basetypes.NewStringNull;
                 AidboxProviderModel.Token := basetypes.NewStringValue "" |}
              eq_refl)).
Defined.

Lemma settable_attributes_require_replace_witness :
  let product :=
    {| schema.Kind := schema.StringAttribute; schema.Required := false;
       schema.Optional := true; schema.Computed := true;
       schema.Default := Some "aidbox";
       schema.PlanModifiers := [schema.RequiresReplace] |} in
  In "product" ["name"; "product"; "type"]
  /\ product.(schema.PlanModifiers) = [schema.RequiresReplace]
  /\ (product.(schema.Default) <> None -> "product" = "product").
Proof.
  exact (settable_attributes_require_replace "product"
           {| schema.Kind := schema.StringAttribute; schema.Required := false;
              schema.Optional := true; schema.Computed := true;
              schema.Default := Some "aidbox";
              schema.PlanModifiers := [schema.RequiresReplace] |}
           (or_intror (or_intror (or_introl eq_refl)))).
Defined.

End MoreExamplesOfTheAdapter.
